(** * The storage shim of backend/server.py

    A shallow embedding of the two MongoDB-like collection classes that
    [backend/server.py] defines, [DemoCollection] (process-local lists held
    in the module-level dict [_demo_storage]) and [SupabaseCollection] (a
    wrapper around the Supabase table client), together with the two
    registries [DemoDB] and [SupabaseDB] that hand out collection objects.

    Python objects that the code shares and mutates (the dicts stored in
    [_demo_storage], the collection objects cached by the registries) are
    modelled with explicit identities; everything else is a value. *)

From Stdlib Require Import ZArith Bool SpecFloat.
From stdpp Require Import gmap strings list fin_maps.

Local Set Warnings "-register-all".
Local Open Scope Z_scope.
Local Open Scope string_scope.

(** ** Python values *)

(** The identity of a Python object. *)
Definition loc := nat.

(** The values a document can hold (the data model of the store): [None],
    booleans, integers, floats, strings, timezone-aware datetimes (the only
    kind [server.py] builds, with [datetime.now(timezone.utc)], kept as
    microseconds since the epoch), lists and nested dicts.  A nested dict is
    only ever compared, never indexed by the store, so it is kept as the list
    of its items.  A float is kept with the identity of its object: CPython
    compares the elements of two containers with [is] before [==], and a NaN
    is the one value on which the two differ. *)
Inductive value : Type :=
  | VNone
  | VBool (b : bool)
  | VInt (z : Z)
  | VFloat (obj : loc) (f : spec_float)
  | VStr (s : string)
  | VDatetime (us : Z)
  | VList (xs : list value)
  | VDict (kvs : list (string * value)).

(** A dict with string keys: documents, queries and [$set] operands. *)
Abbreviation doc := (gmap string value).

(** Numbers are compared by their exact mathematical value, whatever their
    Python type is: [True == 1], [1 == 1.0], and a NaN equals nothing. *)
Inductive number : Type :=
  | NNan
  | NInf (negative : bool)
  | NDyadic (m e : Z).

Definition float_number (f : spec_float) : number :=
  match f with
  | S754_zero _ => NDyadic 0 0
  | S754_infinity s => NInf s
  | S754_nan => NNan
  | S754_finite s m e => NDyadic (if s then Z.neg m else Z.pos m) e
  end.

Definition as_number (v : value) : option number :=
  match v with
  | VBool b => Some (NDyadic (if b then 1 else 0) 0)
  | VInt z => Some (NDyadic z 0)
  | VFloat _ f => Some (float_number f)
  | _ => None
  end.

Definition number_eq (a b : number) : bool :=
  match a, b with
  | NDyadic m1 e1, NDyadic m2 e2 =>
      let e := Z.min e1 e2 in
      (m1 * 2 ^ (e1 - e) =? m2 * 2 ^ (e2 - e))%Z
  | NInf s1, NInf s2 => Bool.eqb s1 s2
  | _, _ => false
  end.

Fixpoint assoc (k : string) (kvs : list (string * value)) : option value :=
  match kvs with
  | [] => None
  | (k', v) :: rest => if String.eqb k k' then Some v else assoc k rest
  end.

(** [a is b] where it differs from [a == b]: on one NaN object.  (On every
    other object identity implies equality: on a container because its
    elements are then identical too.) *)
Definition same_nan (a b : value) : bool :=
  match a, b with
  | VFloat i S754_nan, VFloat j S754_nan => Nat.eqb i j
  | _, _ => false
  end.

(** Python's [a == b] on these values.  Lists are equal when they have the
    same length and equal elements; dicts when they have the same number of
    items and every key of the left one is bound to an equal value in the
    right one; the elements of two containers are equal when they are the
    same object or [==] holds of them.  Values of unrelated types are
    unequal. *)
Fixpoint py_eq (a b : value) : bool :=
  match a, b with
  | VNone, VNone => true
  | VStr s, VStr t => String.eqb s t
  | VDatetime s, VDatetime t => (s =? t)%Z
  | VList xs, VList ys =>
      (fix all_eq (xs ys : list value) : bool :=
         match xs, ys with
         | [], [] => true
         | x :: xs', y :: ys' =>
             (same_nan x y || py_eq x y) && all_eq xs' ys'
         | _, _ => false
         end) xs ys
  | VDict kvs, VDict kws =>
      (length kvs =? length kws)%nat &&
      (fix all_in (kvs : list (string * value)) : bool :=
         match kvs with
         | [] => true
         | (k, v) :: rest =>
             match assoc k kws with
             | Some w => same_nan v w || py_eq v w
             | None => false
             end && all_in rest
         end) kvs
  | _, _ =>
      match as_number a, as_number b with
      | Some x, Some y => number_eq x y
      | _, _ => false
      end
  end.

(** The comparison of two elements of containers, and of [x in xs]:
    identity first, then [==]. *)
Definition elem_eq (a b : value) : bool := same_nan a b || py_eq a b.

(** The keys of a dict are distinct.  The list of items of a [VDict] does
    not enforce it, so it is a condition on the values a theorem speaks
    of. *)
Fixpoint distinct_keys (kvs : list (string * value)) : bool :=
  match kvs with
  | [] => true
  | (k, _) :: rest =>
      match assoc k rest with
      | Some _ => false
      | None => distinct_keys rest
      end
  end.

Fixpoint well_formed (v : value) : bool :=
  match v with
  | VList xs =>
      (fix all_wf (xs : list value) : bool :=
         match xs with
         | [] => true
         | x :: xs' => well_formed x && all_wf xs'
         end) xs
  | VDict kvs =>
      distinct_keys kvs &&
      (fix all_wf (kvs : list (string * value)) : bool :=
         match kvs with
         | [] => true
         | (_, v) :: rest => well_formed v && all_wf rest
         end) kvs
  | _ => true
  end.

(** [v] is a float NaN. *)
Definition is_nan (v : value) : bool :=
  match v with
  | VFloat _ S754_nan => true
  | _ => false
  end.

(** [d.get(k)]: the value under [k], or [None] when [k] is missing. *)
Definition get (d : doc) (k : string) : value := default VNone (d !! k).

(** [d.get(k, dflt)]. *)
Definition get_default (d : doc) (k : string) (dflt : value) : value :=
  default dflt (d !! k).

(** [all(item.get(k) == v for k, v in query.items())], the test every
    operation of [DemoCollection] applies to a stored dict. *)
Definition matches (item query : doc) : bool :=
  forallb (fun kv => py_eq (get item kv.1) kv.2) (map_to_list query).

(** Truthiness of an optional dict argument: [None] and a dict of length 0
    are falsy. *)
Definition truthy (query : option doc) : bool :=
  match query with
  | None => false
  | Some q => negb (Nat.eqb (size q) 0)
  end.

(** ** Exceptions and results *)

(** The exceptions ([Exception] instances) that the operations meet; every
    one carries the text that [str(e)] gives. *)
Inductive exn : Type :=
  | KeyError (key : string)
  | DuplicateKeyError (msg : string)
  | OtherError (msg : string).

Definition exn_str (e : exn) : string :=
  match e with
  | KeyError key => "'" ++ key ++ "'"
  | DuplicateKeyError msg => msg
  | OtherError msg => msg
  end.

(** The outcome of a call: a returned value or a propagated exception. *)
Inductive outcome (A : Type) : Type :=
  | Returned (a : A)
  | Raised (e : exn).
Arguments Returned {A} a.
Arguments Raised {A} e.

(** The anonymous result objects, [type('obj', (object,), {...})()]. *)
Record InsertResult := { inserted_id : value }.
Record UpdateResult := { modified_count : nat }.
Record DeleteResult := { deleted_count : nat }.

(** The [update] argument of [update_one], a dict: the mapping under its
    ['$set'] key when it has one, and its other items. *)
Record update_doc := {
  dollar_set : option doc;
  other_items : gmap string value;
}.

(** ** The in-memory store: DemoCollection and DemoDB *)

Module Demo.

(** The part of the interpreter state the demo store lives in: the dict
    objects reachable from callers and from the store, the module-level
    [_demo_storage] (collection name to list of dict objects) and the
    identity the next collection object gets. *)
Record world := World {
  heap : gmap loc doc;
  _demo_storage : gmap string (list loc);
  next_oid : loc;
}.

Definition set_heap (h : gmap loc doc) (w : world) : world :=
  World h (_demo_storage w) (next_oid w).

Definition set_storage (s : gmap string (list loc)) (w : world) : world :=
  World (heap w) s (next_oid w).

(** The contents of the dict object [l]. *)
Definition deref (w : world) (l : loc) : doc := default ∅ (heap w !! l).

(** A caller builds a new dict with contents [d]. *)
Definition new_dict (d : doc) (w : world) : loc * world :=
  let l := fresh (dom (heap w)) in (l, set_heap (<[l := d]> (heap w)) w).

(** The literal [_demo_storage] is bound to when the module is loaded. *)
Definition initial_storage : gmap string (list loc) :=
  list_to_map
    [("staff_users", []); ("coaches", []); ("players", []);
     ("projects", []); ("password_reset_tokens", []);
     ("payment_transactions", [])].

Definition initial_world : world := World ∅ initial_storage 0%nat.

(** A collection object: its identity and its [name] attribute. *)
Record DemoCollection := { oid : loc; name : string }.

(** [DemoCollection(name)]. *)
Definition __init__ (nm : string) (w : world) : DemoCollection * world :=
  let w1 :=
    match _demo_storage w !! nm with
    | None => set_storage (<[nm := []]> (_demo_storage w)) w
    | Some _ => w
    end in
  ({| oid := next_oid w; name := nm |},
   World (heap w1) (_demo_storage w1) (S (next_oid w1))).

(** [_demo_storage.get(self.name, [])]. *)
Definition items_of (self : DemoCollection) (w : world) : list loc :=
  default [] (_demo_storage w !! name self).

(** The first item of [items] whose dict satisfies [query]: the [for] loop
    with the [if all(...)] test that [find_one] and [update_one] share. *)
Fixpoint first_match (w : world) (query : doc) (items : list loc)
  : option loc :=
  match items with
  | [] => None
  | item :: rest =>
      if matches (deref w item) query then Some item
      else first_match w query rest
  end.

(** [find_one] returns [item.copy()], a new dict; its [projection]
    argument is never read. *)
Definition find_one (self : DemoCollection) (query : doc) (w : world)
  : option loc * world :=
  match first_match w query (items_of self w) with
  | Some item =>
      let (copy, w') := new_dict (deref w item) w in (Some copy, w')
  | None => (None, w)
  end.

(** [find] returns a new list of the stored dict objects themselves. *)
Definition find (self : DemoCollection) (query : option doc) (w : world)
  : list loc :=
  let items := items_of self w in
  if negb (truthy query) then items
  else List.filter (fun item => matches (deref w item) (default ∅ query))
         items.

(** [insert_one] appends the caller's dict object itself; subscripting
    [_demo_storage] raises [KeyError] when the name is missing, which
    [__init__] rules out for a constructed collection.  [uuid4] is the text
    of the random UUID the call draws. *)
Definition insert_one (self : DemoCollection) (document : loc)
    (uuid4 : string) (w : world) : outcome InsertResult * world :=
  match _demo_storage w !! name self with
  | None => (Raised (KeyError (name self)), w)
  | Some items =>
      (Returned
         {| inserted_id := get_default (deref w document) "id" (VStr uuid4) |},
       set_storage
         (<[name self := (items ++ [document])%list]> (_demo_storage w)) w)
  end.

(** [update_one] changes the matched dict object in place with
    [item.update(update['$set'])] and reports 1 for any match. *)
Definition update_one (self : DemoCollection) (query : doc)
    (update : update_doc) (w : world) : UpdateResult * world :=
  match first_match w query (items_of self w) with
  | Some item =>
      ({| modified_count := 1 |},
       match dollar_set update with
       | Some fields =>
           set_heap (<[item := fields ∪ deref w item]> (heap w)) w
       | None => w
       end)
  | None => ({| modified_count := 0 |}, w)
  end.

(** The index of the first matching item, as [enumerate] counts it. *)
Fixpoint first_index (w : world) (query : doc) (i : nat) (items : list loc)
  : option nat :=
  match items with
  | [] => None
  | item :: rest =>
      if matches (deref w item) query then Some i
      else first_index w query (S i) rest
  end.

Definition delete_one (self : DemoCollection) (query : doc) (w : world)
  : DeleteResult * world :=
  match _demo_storage w !! name self with
  | None => ({| deleted_count := 0 |}, w)
  | Some items =>
      match first_index w query 0 items with
      | Some i =>
          ({| deleted_count := 1 |},
           set_storage (<[name self := delete i items]> (_demo_storage w)) w)
      | None => ({| deleted_count := 0 |}, w)
      end
  end.

Definition count_documents (self : DemoCollection) (query : option doc)
    (w : world) : nat :=
  let items := items_of self w in
  if negb (truthy query) then length items
  else
    list_sum
      (List.map (fun _ => 1%nat)
         (List.filter
            (fun item => matches (deref w item) (default ∅ query)) items)).

(** [create_index] is [pass]. *)
Definition create_index (self : DemoCollection) (key : string)
    (unique : bool) (w : world) : unit * world := (tt, w).

(** [DemoCollection.__getattr__]: a new collection object every time. *)
Definition __getattr__ (self : DemoCollection) (nm : string) (w : world)
  : DemoCollection * world :=
  __init__ (name self ++ "." ++ nm) w.

(** The registry object: its [_collections] dict. *)
Record DemoDB := { _collections : gmap string DemoCollection }.

(** [DemoDB()]. *)
Definition new_db : DemoDB := {| _collections := ∅ |}.

(** [DemoDB.__getitem__] ([DemoDB.__getattr__] calls it with the same
    name). *)
Definition __getitem__ (self : DemoDB) (nm : string) (w : world)
  : DemoCollection * DemoDB * world :=
  match _collections self !! nm with
  | Some c => (c, self, w)
  | None =>
      let (c, w') := __init__ nm w in
      (c, {| _collections := <[nm := c]> (_collections self) |}, w')
  end.

End Demo.

(** ** The table-service store: SupabaseCollection and SupabaseDB *)

Module Supabase.

(** What a query builder of the Supabase client has accumulated when
    [execute()] is called on it. *)
Inductive verb : Type :=
  | Select (columns : string) (count : option string)
  | Insert (row : doc)
  | Update (payload : doc)
  | Delete.

Record request := Request {
  table : string;
  action : verb;
  filters : list (string * value);
  row_limit : option nat;
}.

(** [qb.eq(key, value)] and [qb.limit(n)]. *)
Definition eq_ (key : string) (v : value) (qb : request) : request :=
  Request (table qb) (action qb) (filters qb ++ [(key, v)])%list (row_limit qb).

Definition limit (n : nat) (qb : request) : request :=
  Request (table qb) (action qb) (filters qb) (Some n).

(** [for key, value in query.items(): qb = qb.eq(key, value)]. *)
Definition eq_all (query : doc) (qb : request) : request :=
  foldl (fun qb kv => eq_ kv.1 kv.2 qb) qb (map_to_list query).

(** The response object: its [data] and [count] attributes. *)
Record response := { data : option (list doc); count : option nat }.

(** A collection object: its identity and its [table_name] attribute. *)
Record SupabaseCollection := { oid : loc; table_name : string }.

(** The lines written with [logger.error]. *)
Definition log := list string.

Section Client.

(** The remote service as the wrapper sees it: [execute()] on a built
    request returns a response or raises. *)
Variable execute : request -> outcome response.

(** [datetime.isoformat]. *)
Variable isoformat : Z -> string.

Definition find_one (self : SupabaseCollection) (query : doc)
  : outcome (option doc) * log :=
  let qb := Request (table_name self) (Select "*" None) [] None in
  let qb := eq_all query qb in
  match execute (limit 1 qb) with
  | Returned response =>
      match data response with
      | Some (row :: _) => (Returned (Some row), [])
      | _ => (Returned None, [])
      end
  | Raised e =>
      (Returned None,
       ["Supabase find_one error on " ++ table_name self ++ ": " ++ exn_str e])
  end.

Definition find (self : SupabaseCollection) (query : option doc)
  : outcome (list doc) * log :=
  let qb := Request (table_name self) (Select "*" None) [] None in
  let qb := if truthy query then eq_all (default ∅ query) qb else qb in
  match execute qb with
  | Returned response =>
      match data response with
      | Some (row :: rows) => (Returned (row :: rows), [])
      | _ => (Returned [], [])
      end
  | Raised e =>
      (Returned [],
       ["Supabase find error on " ++ table_name self ++ ": " ++ exn_str e])
  end.

Definition insert_one (self : SupabaseCollection) (document : doc)
    (uuid4 : string) : outcome InsertResult * log :=
  let doc :=
    (fun v => match v with VDatetime t => VStr (isoformat t) | _ => v end)
      <$> document in
  match execute (Request (table_name self) (Insert doc) [] None) with
  | Returned _ =>
      (Returned {| inserted_id := get_default doc "id" (VStr uuid4) |}, [])
  | Raised e =>
      (Raised e,
       ["Supabase insert_one error on " ++ table_name self ++ ": "
        ++ exn_str e])
  end.

Definition update_one (self : SupabaseCollection) (query : doc)
    (update : update_doc) : outcome UpdateResult * log :=
  let payload := default (other_items update) (dollar_set update) in
  let qb := Request (table_name self) (Update payload) [] None in
  let qb := eq_all query qb in
  match execute qb with
  | Returned response =>
      (Returned {| modified_count := length (default [] (data response)) |},
       [])
  | Raised e =>
      (Returned {| modified_count := 0 |},
       ["Supabase update_one error on " ++ table_name self ++ ": "
        ++ exn_str e])
  end.

Definition delete_one (self : SupabaseCollection) (query : doc)
  : outcome DeleteResult * log :=
  let qb := Request (table_name self) Delete [] None in
  let qb := eq_all query qb in
  match execute qb with
  | Returned response =>
      (Returned {| deleted_count := length (default [] (data response)) |},
       [])
  | Raised e =>
      (Returned {| deleted_count := 0 |},
       ["Supabase delete_one error on " ++ table_name self ++ ": "
        ++ exn_str e])
  end.

Definition count_documents (self : SupabaseCollection) (query : option doc)
  : outcome nat * log :=
  let qb := Request (table_name self) (Select "*" (Some "exact")) [] None in
  let qb := if truthy query then eq_all (default ∅ query) qb else qb in
  match execute qb with
  | Returned response => (Returned (default 0%nat (count response)), [])
  | Raised e =>
      (Returned 0%nat,
       ["Supabase count_documents error on " ++ table_name self ++ ": "
        ++ exn_str e])
  end.

End Client.

(** [create_index] is [pass]: indexes are managed in the dashboard. *)
Definition create_index (self : SupabaseCollection) (key : string)
    (unique : bool) : unit := tt.

(** The registry object: its [_tables] dict (its [_client] attribute is the
    client every collection reaches through the module-level name). *)
Record SupabaseDB := { _tables : gmap string SupabaseCollection }.

Definition new_db : SupabaseDB := {| _tables := ∅ |}.

(** [SupabaseDB.__getitem__] ([SupabaseDB.__getattr__] calls it with the
    same name); [next_oid] is the identity the next new object gets. *)
Definition __getitem__ (self : SupabaseDB) (nm : string) (next_oid : loc)
  : SupabaseCollection * SupabaseDB * loc :=
  match _tables self !! nm with
  | Some c => (c, self, next_oid)
  | None =>
      let c := {| oid := next_oid; table_name := nm |} in
      (c, {| _tables := <[nm := c]> (_tables self) |}, S next_oid)
  end.

End Supabase.

(** ** Helpers of the route handlers *)

(** Python's truth value of a value: [None], [False], zero, and the empty
    string, list and dict are falsy; a NaN and a datetime are truthy. *)
Definition py_truthy (v : value) : bool :=
  match v with
  | VNone => false
  | VBool b => b
  | VInt z => negb (z =? 0)%Z
  | VFloat _ (S754_zero _) => false
  | VFloat _ _ => true
  | VStr s => negb (String.eqb s "")
  | VDatetime _ => true
  | VList xs => negb (Nat.eqb (length xs) 0)
  | VDict kvs => negb (Nat.eqb (length kvs) 0)
  end.

(** [x in xs] for a list [xs]. *)
Definition py_in (x : value) (xs : list value) : bool :=
  existsb (elem_eq x) xs.

(** The table [feature_tiers] of [can_access_feature]. *)
Definition feature_tiers : gmap string (list string) :=
  list_to_map
    [("contact_info", ["premium"; "elite"]);
     ("film_links", ["premium"; "elite"]);
     ("messaging", ["elite"]);
     ("comparison", ["elite"]);
     ("export", ["premium"; "elite"]);
     ("unlimited_saves", ["premium"; "elite"])].

Definition can_access_feature (tier : value) (feature : string) : bool :=
  py_in tier
    (VStr <$> default ["basic"; "premium"; "elite"] (feature_tiers !! feature)).

(** [s.replace('Z', '+00:00')]; character 90 is [Z]. *)
Fixpoint replace_Z (s : string) : string :=
  match s with
  | EmptyString => EmptyString
  | String c rest =>
      if Ascii.eqb c (Ascii.ascii_of_nat 90) then "+00:00" ++ replace_Z rest
      else String c (replace_Z rest)
  end.

(** What [datetime.fromisoformat] makes of a text: a [ValueError], a
    datetime without time zone, or an instant (microseconds since the
    epoch). *)
Inductive parsed_datetime : Type :=
  | ParseError
  | NaiveTime
  | AwareTime (us : Z).

Section Clock.

Variable fromisoformat : string -> parsed_datetime.

(** [datetime.now(timezone.utc)] at the call, in microseconds. *)
Variable now : Z.

(** [get_coach_tier]: the bare [except] swallows the [AttributeError] or
    [TypeError] of [expires.replace] on a value that is not a string, the
    [ValueError] of [fromisoformat], and the [TypeError] of comparing the
    aware [now] with a datetime without time zone. *)
Definition get_coach_tier (coach : doc) : value :=
  let tier := get_default coach "subscription_tier" (VStr "free") in
  let expires := get coach "subscription_expires" in
  if py_truthy expires then
    match expires with
    | VStr s =>
        match fromisoformat (replace_Z s) with
        | AwareTime exp_date =>
            if (now >? exp_date)%Z then VStr "free" else tier
        | NaiveTime => tier
        | ParseError => tier
        end
    | _ => tier
    end
  else tier.

End Clock.

(** [s[n:]] on a text whose first [n] characters are ASCII. *)
Fixpoint drop_chars (n : nat) (s : string) : string :=
  match n, s with
  | O, _ => s
  | S n', String _ rest => drop_chars n' rest
  | S _, EmptyString => EmptyString
  end.

Section Passwords.

(** [pwd_context.verify] of passlib: a verdict or an exception. *)
Variable pwd_verify : string -> string -> outcome bool.

(** [verify_password]; its [logger] lines are left out. *)
Definition verify_password (plain_password hashed_password : string)
  : bool :=
  if String.eqb hashed_password "" then false
  else if String.prefix "PLAIN:" hashed_password then
    String.eqb plain_password (drop_chars 6 hashed_password)
  else
    match pwd_verify plain_password hashed_password with
    | Returned result => result
    | Raised _ => false
    end.

End Passwords.

(** ** Route handlers on the in-memory store *)

(** The handlers below are run with [mongo_db] bound to a [DemoDB]: the
    state they work on is that registry and the world.  The random UUIDs,
    password hashes and clock readings a handler draws are arguments. *)
Module Handlers.

(** How a handler ends: with a reply, with an [HTTPException], or with an
    exception it does not catch. *)
Inductive reply (A : Type) : Type :=
  | Replied (a : A)
  | HTTPException (status_code : nat) (detail : string)
  | Failed (e : exn).
Arguments Replied {A} a.
Arguments HTTPException {A} status_code detail.
Arguments Failed {A} e.

Definition app : Type := Demo.DemoDB * Demo.world.

(** [mongo_db.<nm>]: [DemoDB.__getattr__] returns [self[nm]]. *)
Definition mongo_db_attr (nm : string) (s : app) : Demo.DemoCollection * app :=
  let r := Demo.__getitem__ s.1 nm s.2 in (r.1.1, (r.1.2, r.2)).

(** The truth value of what [find_one] returned: [None] and an empty dict
    are falsy. *)
Definition found_truthy (found : option loc) (w : Demo.world) : bool :=
  match found with
  | None => false
  | Some l => negb (Nat.eqb (size (Demo.deref w l)) 0)
  end.

Record RegisterRequest := {
  email : string;
  password : string;
  name : string;
  role : string;
}.

(** [register]; [hashed] is [hash_password(request.password)], [created_at]
    the ISO text of the clock, [uuid4] the id drawn for the user and
    [spare_uuid4] the UUID [insert_one] draws and drops. *)
Definition register (request : RegisterRequest)
    (uuid4 hashed created_at spare_uuid4 : string) (s : app)
  : reply doc * app :=
  let '(staff_users, s1) := mongo_db_attr "staff_users" s in
  let '(existing, w2) :=
    Demo.find_one staff_users {[ "email" := VStr (email request) ]} s1.2 in
  if found_truthy existing w2 then
    (HTTPException 400 "Email already registered", (s1.1, w2))
  else
    let '(user, w3) :=
      Demo.new_dict
        {[ "id" := VStr uuid4;
           "email" := VStr (email request);
           "password_hash" := VStr hashed;
           "name" := VStr (name request);
           "role" := VStr (role request);
           "is_active" := VBool true;
           "created_at" := VStr created_at ]} w2 in
    let '(staff_users', s4) := mongo_db_attr "staff_users" (s1.1, w3) in
    match Demo.insert_one staff_users' user spare_uuid4 s4.2 with
    | (Raised e, w5) => (Failed e, (s4.1, w5))
    | (Returned _, w5) =>
        let u := Demo.deref w5 user in
        (Replied
           {[ "id" := get u "id"; "email" := get u "email";
              "name" := get u "name"; "role" := get u "role";
              "is_active" := get u "is_active" ]},
         (s4.1, w5))
    end.

(** [verify_player]; the [current_user] that [require_editor] supplies is
    not read. *)
Definition verify_player (player_id : string) (s : app) : reply doc * app :=
  let '(players, s1) := mongo_db_attr "players" s in
  let '(player, w2) :=
    Demo.find_one players {[ "id" := VStr player_id ]} s1.2 in
  match player with
  | Some l =>
      if found_truthy player w2 then
        let new_verified :=
          negb (py_truthy
                  (get_default (Demo.deref w2 l) "verified" (VBool false))) in
        let '(players', s3) := mongo_db_attr "players" (s1.1, w2) in
        let '(_, w4) :=
          Demo.update_one players' {[ "id" := VStr player_id ]}
            {| dollar_set := Some {[ "verified" := VBool new_verified ]};
               other_items := ∅ |} s3.2 in
        (Replied {[ "verified" := VBool new_verified ]}, (s3.1, w4))
      else (HTTPException 404 "Player not found", (s1.1, w2))
  | None => (HTTPException 404 "Player not found", (s1.1, w2))
  end.

(** [setup_admin]; the arguments are as for [register].  The [try]
    turns any exception into a 500. *)
Definition setup_admin (uuid4 hashed created_at spare_uuid4 : string)
    (s : app) : reply doc * app :=
  let '(staff_users, s1) := mongo_db_attr "staff_users" s in
  let staff_count := Demo.count_documents staff_users (Some ∅) s1.2 in
  if (0 <? staff_count)%nat then
    (Replied
       {[ "message" := VStr "Setup already complete";
          "existing_users" := VInt (Z.of_nat staff_count);
          "note" :=
            VStr "Admin user already exists. Use /auth/login to authenticate."
       ]},
     s1)
  else
    let '(admin_user, w3) :=
      Demo.new_dict
        {[ "id" := VStr uuid4;
           "email" := VStr "admin@hoopwithher.com";
           "password_hash" := VStr hashed;
           "name" := VStr "System Administrator";
           "role" := VStr "admin";
           "is_active" := VBool true;
           "is_verified" := VBool true;
           "created_at" := VStr created_at ]} s1.2 in
    let '(staff_users', s4) := mongo_db_attr "staff_users" (s1.1, w3) in
    match Demo.insert_one staff_users' admin_user spare_uuid4 s4.2 with
    | (Raised e, w5) =>
        (HTTPException 500 ("Setup failed: " ++ exn_str e), (s4.1, w5))
    | (Returned _, w5) =>
        (Replied
           {[ "message" := VStr "Initial admin user created successfully";
              "admin_email" := VStr "admin@hoopwithher.com";
              "admin_password" := VStr "AdminPass123!";
              "warning" :=
                VStr "Change this password immediately after first login!"
           ]},
         (s4.1, w5))
    end.

(** The loops of [get_dashboard_stats]:
    [for key in keys: d[key] = await mongo_db.<coll>.count_documents({field: key})],
    the dict [d] being kept as the list of its items. *)
Definition count_by (coll field : string) (keys : list string) (s : app)
  : list (string * nat) * app :=
  foldl
    (fun acc key =>
       let '(c, s') := mongo_db_attr coll acc.2 in
       ((acc.1 ++
         [(key, Demo.count_documents c (Some {[ field := VStr key ]}) s'.2)])
          %list,
        s'))
    ([], s) keys.

(** The dict that [get_dashboard_stats] returns. *)
Record DashboardStats := {
  total_players : nat;
  total_projects : nat;
  projects_by_status : list (string * nat);
  recent_submissions : nat;
  packages_breakdown : list (string * nat);
}.

(** [get_dashboard_stats]; [week_ago] is the ISO text of the clock seven
    days back, and [current_user] is not read. *)
Definition get_dashboard_stats (week_ago : string) (s : app)
  : DashboardStats * app :=
  let '(players, s1) := mongo_db_attr "players" s in
  let n_players := Demo.count_documents players (Some ∅) s1.2 in
  let '(projects, s2) := mongo_db_attr "projects" s1 in
  let n_projects := Demo.count_documents projects (Some ∅) s2.2 in
  let '(by_status, s3) :=
    count_by "projects" "status"
      ["requested"; "in_review"; "drafting"; "design"; "delivered"] s2 in
  let '(intake_submissions, s4) := mongo_db_attr "intake_submissions" s3 in
  let recent :=
    Demo.count_documents intake_submissions
      (Some {[ "created_at" := VDict [("$gte", VStr week_ago)] ]}) s4.2 in
  let '(by_package, s5) :=
    count_by "projects" "package_type"
      ["starter"; "development"; "elite_track"] s4 in
  ({| total_players := n_players;
      total_projects := n_projects;
      projects_by_status := by_status;
      recent_submissions := recent;
      packages_breakdown := by_package |}, s5).

(** The block that [_seed_demo_data] runs twice, for the admin and for the
    test coach:
    [existing = await mongo_db.<coll>.find_one({"email": e});
     if not existing: await mongo_db.<coll>.insert_one({...})]. *)
Definition seed_block (coll email_text : string) (user : doc)
    (spare_uuid4 : string) (s : app) : outcome unit * app :=
  let '(c, s1) := mongo_db_attr coll s in
  let '(existing, w2) :=
    Demo.find_one c {[ "email" := VStr email_text ]} s1.2 in
  if found_truthy existing w2 then (Returned tt, (s1.1, w2))
  else
    let '(u, w3) := Demo.new_dict user w2 in
    let '(c', s4) := mongo_db_attr coll (s1.1, w3) in
    match Demo.insert_one c' u spare_uuid4 s4.2 with
    | (Raised e, w5) => (Raised e, (s4.1, w5))
    | (Returned _, w5) => (Returned tt, (s4.1, w5))
    end.

(** What one run of [_seed_demo_data] draws: ids, password hashes, clock
    texts, and the UUIDs that [insert_one] draws and drops. *)
Record SeedDraws := {
  admin_id : string;
  admin_hash : string;
  admin_created : string;
  admin_spare : string;
  coach_id : string;
  coach_hash : string;
  coach_created : string;
  coach_spare : string;
}.

(** [_seed_demo_data]: an exception ends the seeding and is logged, not
    raised; the [logger] lines are left out. *)
Definition _seed_demo_data (d : SeedDraws) (s : app) : app :=
  match
    seed_block "staff_users" "admin@hoopwithher.com"
      {[ "id" := VStr (admin_id d);
         "email" := VStr "admin@hoopwithher.com";
         "password_hash" := VStr (admin_hash d);
         "name" := VStr "System Administrator";
         "role" := VStr "admin";
         "is_active" := VBool true;
         "is_verified" := VBool true;
         "created_at" := VStr (admin_created d) ]}
      (admin_spare d) s
  with
  | (Raised _, s') => s'
  | (Returned _, s') =>
      (seed_block "coaches" "coach@university.edu"
         {[ "id" := VStr (coach_id d);
            "email" := VStr "coach@university.edu";
            "password_hash" := VStr (coach_hash d);
            "name" := VStr "Coach Johnson";
            "school" := VStr "University State";
            "title" := VStr "Head Coach";
            "state" := VStr "CA";
            "is_active" := VBool true;
            "is_verified" := VBool true;
            "saved_players" := VList [];
            "created_at" := VStr (coach_created d) ]}
         (coach_spare d) s').2
  end.

End Handlers.

(** ** Sample data *)

(** The two player documents of the insertion-order scenario. *)
Definition p1 : doc :=
  {[ "id" := VStr "p1"; "grad_class" := VStr "2026";
     "verified" := VBool false ]}.

Definition p2 : doc :=
  {[ "id" := VStr "p2"; "grad_class" := VStr "2027";
     "verified" := VBool true ]}.

(** A ["players"] collection object and a world in which it holds the
    single document [p1], stored as object 0. *)
Definition players : Demo.DemoCollection :=
  {| Demo.oid := 0%nat; Demo.name := "players" |}.

Definition one_player_world : Demo.world :=
  Demo.World {[ 0%nat := p1 ]}
    (<["players" := [0%nat]]> Demo.initial_storage) 1%nat.

(** A world in which the collection holds [p1] and then [p2], stored as
    objects 0 and 1. *)
Definition stored_players_world : Demo.world :=
  Demo.World {[ 0%nat := p1; 1%nat := p2 ]}
    (<["players" := [0%nat; 1%nat]]> Demo.initial_storage) 1%nat.

(** A world in which a caller has built [p1] and [p2] (objects 0 and 1)
    and the ["players"] collection is still empty. *)
Definition two_players_world : Demo.world :=
  Demo.World {[ 0%nat := p1; 1%nat := p2 ]} Demo.initial_storage 1%nat.

(** A document whose id is a NaN, stored as object 0 of a world whose
    collections are all empty. *)
Definition nan_doc : doc := {[ "id" := VFloat 7%nat S754_nan ]}.

Definition nan_world : Demo.world :=
  Demo.World {[ 0%nat := nan_doc ]} Demo.initial_storage 1%nat.

(** Two coach documents with the same email, objects 0 and 1 of a world
    whose collections are all empty. *)
Definition coach_a : doc :=
  {[ "id" := VStr "c1"; "email" := VStr "coach@example.com" ]}.

Definition coach_b : doc :=
  {[ "id" := VStr "c2"; "email" := VStr "coach@example.com" ]}.

Definition coaches : Demo.DemoCollection :=
  {| Demo.oid := 0%nat; Demo.name := "coaches" |}.

Definition two_coaches_world : Demo.world :=
  Demo.World {[ 0%nat := coach_a; 1%nat := coach_b ]}
    Demo.initial_storage 1%nat.


Definition coaches_table : Supabase.SupabaseCollection :=
  {| Supabase.oid := 0%nat; Supabase.table_name := "coaches" |}.

Definition by_id_c1 : doc := {[ "id" := VStr "c1" ]}.

Definition set_verified : update_doc :=
  {| dollar_set := Some {[ "is_verified" := VBool true ]};
     other_items := ∅ |}.

(** A Supabase client that answers every request with the same two rows,
    and a stand-in for [datetime.isoformat]. *)
Definition two_rows_client (r : Supabase.request)
  : outcome Supabase.response :=
  Returned {| Supabase.data := Some [coach_a; coach_b];
              Supabase.count := Some 2%nat |}.

Definition sample_isoformat (us : Z) : string := "2026-01-01T00:00:00+00:00".

(** A coach whose premium subscription ran out at instant 100, and a
    parser that reads that instant from any text. *)
Definition lapsed_coach : doc :=
  {[ "id" := VStr "c1"; "subscription_tier" := VStr "premium";
     "subscription_expires" := VStr "1970-01-01T00:00:00.000100Z" ]}.

Definition sample_fromisoformat (s : string) : parsed_datetime :=
  AwareTime 100.

(** A registration request. *)
Definition sample_request : Handlers.RegisterRequest :=
  {| Handlers.email := "ana@example.com";
     Handlers.password := "correct horse";
     Handlers.name := "Ana";
     Handlers.role := "viewer" |}.

(** The draws of two runs of the seeding. *)
Definition first_draws : Handlers.SeedDraws :=
  {| Handlers.admin_id := "a1"; Handlers.admin_hash := "h1";
     Handlers.admin_created := "t1"; Handlers.admin_spare := "s1";
     Handlers.coach_id := "c1"; Handlers.coach_hash := "h2";
     Handlers.coach_created := "t2"; Handlers.coach_spare := "s2" |}.

Definition second_draws : Handlers.SeedDraws :=
  {| Handlers.admin_id := "a2"; Handlers.admin_hash := "h3";
     Handlers.admin_created := "t3"; Handlers.admin_spare := "s3";
     Handlers.coach_id := "c2"; Handlers.coach_hash := "h4";
     Handlers.coach_created := "t4"; Handlers.coach_spare := "s4" |}.

(** ** Invariants *)

(** Collection [coll] holds a document whose e-mail address equals [e]. *)
Definition holds_email (coll e : string) (w : Demo.world) : Prop :=
  exists item,
    item ∈ default [] (Demo._demo_storage w !! coll) /\
    py_eq (get (Demo.deref w item) "email") (VStr e) = true.

(** A registry is sound in a state when every collection object it caches
    is cached under its own name and the list of that name exists. *)
Definition registry_ok (db : Demo.DemoDB) (w : Demo.world) : Prop :=
  forall nm c,
    Demo._collections db !! nm = Some c ->
    Demo.name c = nm /\ is_Some (Demo._demo_storage w !! nm).

(** [_demo_storage] as [DemoCollection(nm)] leaves it: with [nm] bound to
    an empty list when it was missing. *)
Definition with_name (nm : string) (storage : gmap string (list loc))
  : gmap string (list loc) :=
  match storage !! nm with
  | Some _ => storage
  | None => <[nm := []]> storage
  end.

(** ** Facts about comparison and matching *)

Section Matching.

Implicit Types (item query : doc) (k : string) (v : value).

Lemma py_eq_None_l v : py_eq VNone v = true <-> v = VNone.
Proof. destruct v; simpl; split; intros H; congruence. Qed.

Lemma get_missing item k : item !! k = None -> get item k = VNone.
Proof. unfold get. intros ->. reflexivity. Qed.

Lemma get_present item k v : item !! k = Some v -> get item k = v.
Proof. unfold get. intros ->. reflexivity. Qed.

Lemma matches_spec item query :
  matches item query = true <->
  forall k v, query !! k = Some v -> py_eq (get item k) v = true.
Proof.
  unfold matches. rewrite forallb_forall. split.
  - intros H k v Hk. apply (H (k, v)).
    apply list_elem_of_In, elem_of_map_to_list, Hk.
  - intros H [k v] Hin. simpl. apply H.
    apply elem_of_map_to_list, list_elem_of_In, Hin.
Qed.

Lemma matches_singleton item k v :
  matches item {[k := v]} = py_eq (get item k) v.
Proof.
  unfold matches. rewrite map_to_list_singleton. simpl.
  apply andb_true_r.
Qed.

Lemma matches_empty item : matches item ∅ = true.
Proof. unfold matches. rewrite map_to_list_empty. reflexivity. Qed.

Lemma truthy_singleton k v : truthy (Some {[k := v]}) = true.
Proof. unfold truthy. rewrite map_size_singleton. reflexivity. Qed.

(** Induction on values that reaches into lists and dicts. *)
Lemma value_nested_ind (P : value -> Prop) :
  P VNone -> (forall b, P (VBool b)) -> (forall z, P (VInt z)) ->
  (forall i f, P (VFloat i f)) -> (forall s, P (VStr s)) ->
  (forall us, P (VDatetime us)) ->
  (forall xs, Forall P xs -> P (VList xs)) ->
  (forall kvs, Forall (fun kv => P kv.2) kvs -> P (VDict kvs)) ->
  forall v, P v.
Proof.
  intros HNone HBool HInt HFloat HStr HDate HList HDict.
  fix IH 1. intros [ | b | z | i f | s | us | xs | kvs ].
  - exact HNone.
  - apply HBool.
  - apply HInt.
  - apply HFloat.
  - apply HStr.
  - apply HDate.
  - apply HList.
    induction xs as [|x xs IHxs]; constructor; [apply IH | exact IHxs].
  - apply HDict.
    induction kvs as [|[k x] kvs IHkvs]; constructor;
      [apply IH | exact IHkvs].
Qed.

Lemma number_eq_refl x : x <> NNan -> number_eq x x = true.
Proof.
  destruct x as [ | s | m e ]; simpl; intros H.
  - congruence.
  - by destruct s.
  - apply Z.eqb_refl.
Qed.

Lemma assoc_app_distinct k v before after :
  assoc k before = None -> assoc k (before ++ (k, v) :: after) = Some v.
Proof.
  induction before as [|[k' v'] before IH]; simpl.
  - by rewrite String.eqb_refl.
  - destruct (String.eqb k k'); [discriminate | exact IH].
Qed.

Lemma assoc_snoc_None k k' v before :
  assoc k (before ++ [(k', v)]) = None <->
  assoc k before = None /\ String.eqb k k' = false.
Proof.
  induction before as [|[k'' v''] before IH]; simpl.
  - destruct (String.eqb k k'); split; try tauto; try discriminate.
    intros [_ H]. discriminate.
  - destruct (String.eqb k k''); [|exact IH].
    split; [discriminate | intros [H _]; discriminate].
Qed.

(** An object is equal to itself as an element of a container. *)
Lemma elem_eq_refl v : well_formed v = true -> elem_eq v v = true.
Proof.
  unfold elem_eq.
  induction v as [ | b | z | i f | s | us | xs IH | kvs IH ]
    using value_nested_ind; simpl; intros Hfree.
  - reflexivity.
  - apply Z.eqb_refl.
  - apply Z.eqb_refl.
  - destruct f; simpl; rewrite ?Nat.eqb_refl, ?Z.eqb_refl; try reflexivity.
    by destruct s.
  - apply String.eqb_refl.
  - apply Z.eqb_refl.
  - induction IH as [|x xs Hx _ IHxs]; [reflexivity|].
    apply andb_true_iff in Hfree as [Hfx Hfxs].
    rewrite (Hx Hfx). simpl. exact (IHxs Hfxs).
  - rewrite Nat.eqb_refl. simpl.
    apply andb_true_iff in Hfree as [Hkeys Hfree].
    set (whole := kvs) at 1.
    assert (Hsplit : exists before, whole = (before ++ kvs)%list /\
              forall kv, In kv kvs -> assoc kv.1 before = None).
    { exists []. split; [reflexivity|]. intros kv _. reflexivity. }
    assert (Hdist : distinct_keys whole = true) by exact Hkeys.
    clearbody whole. clear Hkeys.
    induction IH as [|[k x] rest Hx _ IHrest]; [reflexivity|].
    apply andb_true_iff in Hfree as [Hfx Hfrest].
    destruct Hsplit as (before & -> & Hnone).
    rewrite assoc_app_distinct by (apply (Hnone (k, x)); by left).
    simpl in Hx. rewrite (Hx Hfx). simpl.
    apply IHrest; [exact Hfrest |].
    exists (before ++ [(k, x)])%list. split; [by rewrite <- app_assoc|].
    intros [k' x'] Hin. simpl. apply assoc_snoc_None. split.
    + apply (Hnone (k', x')). by right.
    + destruct (String.eqb k' k) eqn:E; [|reflexivity].
      apply String.eqb_eq in E. subst k'. exfalso.
      clear -Hdist Hin. induction before as [|[kb xb] before IHb].
      * simpl in Hdist.
        assert (Hsome : exists y, assoc k rest = Some y).
        { clear Hdist. induction rest as [|[k2 x2] rest IHr];
            [inversion Hin|]. simpl.
          destruct (String.eqb k k2) eqn:E2; [eauto|].
          destruct Hin as [Heq|Hin]; [|auto].
          injection Heq as -> ->. rewrite String.eqb_refl in E2.
          discriminate. }
        destruct Hsome as [y Hy]. rewrite Hy in Hdist. discriminate.
      * simpl in Hdist.
        destruct (assoc kb (before ++ (k, x) :: rest));
          [discriminate | auto].
Qed.

Lemma same_nan_is_nan a b : same_nan a b = true -> is_nan a = true.
Proof. by destruct a as [ | | | ? [] | | | | ]. Qed.

(** [==] is reflexive on every value but a NaN: on a container also when it
    holds one. *)
Lemma py_eq_refl v :
  well_formed v = true -> is_nan v = false -> py_eq v v = true.
Proof.
  intros Hwf Hnan. pose proof (elem_eq_refl v Hwf) as H.
  unfold elem_eq in H. apply orb_true_iff in H as [H|H]; [|exact H].
  apply same_nan_is_nan in H. congruence.
Qed.

(** A NaN is not equal to itself, whatever object it is. *)
Lemma py_eq_nan v : is_nan v = true -> py_eq v v = false.
Proof. by destruct v as [ | | | ? [] | | | | ]. Qed.

End Matching.

Section Loops.

Import Demo.

Variable w : world.
Variable query : doc.

Lemma first_match_Some items t :
  first_match w query items = Some t ->
  t ∈ items /\ matches (deref w t) query = true.
Proof.
  induction items as [|item rest IH]; simpl; [discriminate|].
  destruct (matches (deref w item) query) eqn:E.
  - intros [= <-]. split; [left | exact E].
  - intros H. destruct (IH H) as [Hin Hm]. split; [by right | exact Hm].
Qed.

Lemma first_match_None items :
  first_match w query items = None <->
  forall item, item ∈ items -> matches (deref w item) query = false.
Proof.
  induction items as [|item rest IH]; simpl.
  - split; [intros _ x Hx; inversion Hx | reflexivity].
  - destruct (matches (deref w item) query) eqn:E.
    + split; [discriminate|]. intros H.
      specialize (H item (list_elem_of_here _ _)). congruence.
    + rewrite IH. split.
      * intros H x Hx. inversion Hx; subst; auto.
      * intros H x Hx. apply H. by right.
Qed.

Lemma first_match_is_Some items item :
  item ∈ items -> matches (deref w item) query = true ->
  is_Some (first_match w query items).
Proof.
  intros Hin Hm. destruct (first_match w query items) eqn:E; [eauto|].
  rewrite first_match_None in E. rewrite (E _ Hin) in Hm. discriminate.
Qed.

Lemma first_index_first_match i items :
  first_index w query i items = None <-> first_match w query items = None.
Proof.
  revert i. induction items as [|item rest IH]; intros i; simpl; [done|].
  destruct (matches (deref w item) query); [split; discriminate | apply IH].
Qed.

Lemma count_ones {A : Type} (xs : list A) :
  list_sum (List.map (fun _ => 1%nat) xs) = length xs.
Proof. induction xs as [|x xs IH]; simpl; [reflexivity | by rewrite IH]. Qed.

End Loops.

(** ** The in-memory store: counting, matching and updating *)

Section DemoProperties.

Import Demo.

Implicit Types (w : world) (self : DemoCollection) (query : doc).

(** C9: [count_documents(query)] is the number of documents [find(query)]
    returns, and [count_documents()] without a query is the number of
    documents stored in the collection. *)
Theorem count_documents_is_length_of_find self (query : option doc) w :
  count_documents self query w = length (find self query w) /\
  count_documents self None w
  = length (default [] (_demo_storage w !! name self)).
Proof.
  unfold count_documents, find. split.
  - destruct (negb (truthy query)); [reflexivity | apply count_ones].
  - reflexivity.
Qed.

(** C10: when the query matches some stored document and the update dict
    has no ['$set'] key, [update_one] returns [modified_count] 1 and the
    matched document, the collection and the rest of the state are what
    they were. *)
Theorem update_one_without_set_reports_one self query update w item :
  item ∈ items_of self w ->
  matches (deref w item) query = true ->
  dollar_set update = None ->
  update_one self query update w = ({| modified_count := 1 |}, w).
Proof.
  intros Hin Hm Hset. unfold update_one.
  destruct (first_match_is_Some w query _ _ Hin Hm) as [t ->].
  rewrite Hset. reflexivity.
Qed.

Lemma update_one_without_set_reports_one_witness :
  update_one players {[ "id" := VStr "p1" ]}
    {| dollar_set := None;
       other_items := {[ "$push" := VDict [("tags", VStr "x")] ]} |}
    one_player_world
  = ({| modified_count := 1 |}, one_player_world).
Proof.
  apply (update_one_without_set_reports_one players _ _ one_player_world
           0%nat).
  - vm_compute. left.
  - vm_compute. reflexivity.
  - reflexivity.
Defined.

End DemoProperties.

Section DemoMatching.

Import Demo.

Implicit Types (w : world) (self : DemoCollection) (query : doc).

(** C7: a document [d] without field [k] satisfies the query
    [{k: operand}] exactly when [operand] is [None].  So, wherever [d] is
    stored, [find] with that query returns it exactly when [operand] is
    [None]; and on a collection holding [d] alone, [count_documents],
    [find_one], [update_one] and [delete_one] find one match when [operand]
    is [None] and no match otherwise. *)
Theorem missing_field_equals_only_None (d : doc) k operand :
  d !! k = None ->
  let query := {[ k := operand ]} in
  (matches d query = true <-> operand = VNone) /\
  (forall w self l,
     l ∈ items_of self w -> deref w l = d ->
     (l ∈ find self (Some query) w <-> operand = VNone)) /\
  (forall w self l update,
     _demo_storage w !! name self = Some [l] -> deref w l = d ->
     (operand = VNone ->
        find self (Some query) w = [l] /\
        count_documents self (Some query) w = 1%nat /\
        is_Some (find_one self query w).1 /\
        modified_count (update_one self query update w).1 = 1%nat /\
        deleted_count (delete_one self query w).1 = 1%nat) /\
     (operand <> VNone ->
        find self (Some query) w = [] /\
        count_documents self (Some query) w = 0%nat /\
        (find_one self query w).1 = None /\
        modified_count (update_one self query update w).1 = 0%nat /\
        deleted_count (delete_one self query w).1 = 0%nat)).
Proof.
  intros Hk query. subst query.
  assert (Hm : matches d {[ k := operand ]} = py_eq VNone operand)
    by (rewrite matches_singleton, (get_missing _ _ Hk); reflexivity).
  split; [rewrite Hm; apply py_eq_None_l |]. split.
  - intros w self l Hin Hd. unfold find.
    rewrite truthy_singleton. simpl.
    rewrite list_elem_of_In, filter_In, <- list_elem_of_In, Hd, Hm.
    rewrite py_eq_None_l. tauto.
  - intros w self l update Hs Hd.
    assert (Hitems : items_of self w = [l])
      by (unfold items_of; rewrite Hs; reflexivity).
    unfold find, count_documents, find_one, update_one, delete_one.
    rewrite Hitems, Hs, truthy_singleton. simpl. rewrite Hd, Hm.
    split.
    + intros ->. simpl. repeat split; eauto.
    + intros Hne. destruct (py_eq VNone operand) eqn:E.
      * apply py_eq_None_l in E. contradiction.
      * simpl. repeat split.
Qed.

Lemma missing_field_equals_only_None_witness :
  (matches p1 {[ "school" := VStr "Lincoln" ]} = true <->
   VStr "Lincoln" = VNone) /\
  (0%nat ∈ find players (Some {[ "school" := VNone ]}) one_player_world
   <-> VNone = VNone).
Proof.
  split.
  - apply (missing_field_equals_only_None p1 "school" (VStr "Lincoln")).
    reflexivity.
  - assert (Hk : p1 !! "school" = None) by reflexivity.
    destruct (missing_field_equals_only_None p1 "school" VNone Hk)
      as (_ & Hfind & _).
    apply Hfind; [vm_compute; left | reflexivity].
Defined.

End DemoMatching.

Section DemoUpdates.

Import Demo.

Implicit Types (w : world) (self : DemoCollection) (query : doc).

Lemma first_match_app w query xs ys :
  (forall item, item ∈ xs -> matches (deref w item) query = false) ->
  first_match w query (xs ++ ys) = first_match w query ys.
Proof.
  induction xs as [|x xs IH]; intros H; simpl; [reflexivity|].
  rewrite (H x (list_elem_of_here _ _)). apply IH.
  intros item Hin. apply H. by right.
Qed.

(** The match [update_one] acts on is the first one in storage order. *)
Lemma first_match_split w query items t :
  first_match w query items = Some t ->
  exists before after,
    items = (before ++ t :: after)%list /\
    matches (deref w t) query = true /\
    forall item, item ∈ before -> matches (deref w item) query = false.
Proof.
  induction items as [|x xs IH]; simpl; [discriminate|].
  destruct (matches (deref w x) query) eqn:E.
  - intros [= <-]. exists [], xs. repeat split; [exact E|].
    intros item Hin. inversion Hin.
  - intros H. destruct (IH H) as (before & after & -> & Hm & Hb).
    exists (x :: before), after. repeat split; [exact Hm|].
    intros item Hin. inversion Hin; subst; auto.
Qed.

Lemma first_match_at w query before t after :
  matches (deref w t) query = true ->
  (forall item, item ∈ before -> matches (deref w item) query = false) ->
  first_match w query (before ++ t :: after) = Some t.
Proof.
  intros Ht Hbefore. rewrite (first_match_app _ _ _ _ Hbefore).
  simpl. by rewrite Ht.
Qed.

Lemma deref_set_heap_eq w l d :
  deref (set_heap (<[l := d]> (heap w)) w) l = d.
Proof. unfold deref, set_heap. simpl. by rewrite lookup_insert_eq. Qed.

Lemma deref_set_storage w s l : deref (set_storage s w) l = deref w l.
Proof. reflexivity. Qed.

Lemma first_match_set_storage w s query items :
  first_match (set_storage s w) query items = first_match w query items.
Proof. induction items as [|x xs IH]; simpl; [reflexivity | by rewrite IH]. Qed.

(** C5: [update_one({id: D.id}, {'$set': S})] for a stored document [D]
    changes exactly the fields named in [S] on the first document matching
    the query.  Whatever stored document [t] is the first one, in storage
    order, whose id equals the id of [D]: after the call [t] has the values
    of [S] under the keys of [S] and its former values under every other
    key, every other dict object is what it was, the list of the collection
    is what it was and the call reports 1.  There is such a [t] whenever the
    id of [D] equals itself; when no stored id equals it, nothing changes at
    all. *)
Theorem update_one_set_changes_only_named_fields
    self w D (S : doc) (others : gmap string value) :
  D ∈ default [] (_demo_storage w !! name self) ->
  let stored := default [] (_demo_storage w !! name self) in
  let v := get (deref w D) "id" in
  let has_id item := py_eq (get (deref w item) "id") v in
  let update := {| dollar_set := Some S; other_items := others |} in
  let r := update_one self {[ "id" := v ]} update w in
  _demo_storage r.2 = _demo_storage w /\
  (forall before t after,
     stored = (before ++ t :: after)%list ->
     has_id t = true ->
     (forall item, item ∈ before -> has_id item = false) ->
     modified_count r.1 = 1%nat /\
     (forall k x, S !! k = Some x -> deref r.2 t !! k = Some x) /\
     (forall k, S !! k = None -> deref r.2 t !! k = deref w t !! k) /\
     (forall l, l <> t -> heap r.2 !! l = heap w !! l)) /\
  ((forall item, item ∈ stored -> has_id item = false) ->
   r = ({| modified_count := 0 |}, w)) /\
  (py_eq v v = true ->
   exists before t after,
     stored = (before ++ t :: after)%list /\
     has_id t = true /\
     forall item, item ∈ before -> has_id item = false).
Proof.
  intros HD stored v has_id update r. subst r. unfold update_one, items_of.
  fold stored. split; [|split; [|split]].
  - destruct (first_match w {[ "id" := v ]} stored); reflexivity.
  - intros before t after Hsplit Ht Hbefore.
    rewrite Hsplit, first_match_at.
    + cbn [fst snd dollar_set update]. split; [reflexivity|].
      rewrite deref_set_heap_eq. split; [|split].
      * intros k x Hk. by apply lookup_union_Some_l.
      * intros k Hk. by apply lookup_union_r.
      * intros l Hl. by apply lookup_insert_ne.
    + by rewrite matches_singleton.
    + intros item Hin. rewrite matches_singleton. by apply Hbefore.
  - intros Hnone.
    assert (E : first_match w {[ "id" := v ]} stored = None).
    { apply first_match_None. intros item Hin. rewrite matches_singleton.
      by apply Hnone. }
    by rewrite E.
  - intros Hrefl.
    destruct (first_match_is_Some w {[ "id" := v ]} stored D HD) as [t Ht].
    { rewrite matches_singleton. exact Hrefl. }
    destruct (first_match_split _ _ _ _ Ht)
      as (before & after & Hsplit & Hm & Hb).
    exists before, t, after. split; [exact Hsplit|].
    rewrite matches_singleton in Hm. split; [exact Hm|].
    intros item Hin. specialize (Hb item Hin).
    by rewrite matches_singleton in Hb.
Qed.

Lemma update_one_set_changes_only_named_fields_witness :
  let r :=
    update_one players {[ "id" := VStr "p2" ]}
      {| dollar_set := Some {[ "verified" := VBool false ]};
         other_items := ∅ |} stored_players_world in
  1%nat ∈ default [] (_demo_storage stored_players_world !! "players") /\
  modified_count r.1 = 1%nat /\
  deref r.2 1%nat !! "verified" = Some (VBool false) /\
  deref r.2 1%nat !! "grad_class" = Some (VStr "2027") /\
  heap r.2 !! 0%nat = Some p1.
Proof.
  assert (Hin : 1%nat ∈ default []
                  (_demo_storage stored_players_world !! name players)).
  { vm_compute. right. left. }
  split; [exact Hin|].
  destruct (update_one_set_changes_only_named_fields players
              stored_players_world 1%nat {[ "verified" := VBool false ]} ∅
              Hin) as (_ & Hupd & _ & _).
  destruct (Hupd [0%nat] 1%nat []) as (Hcount & Hset & Hkeep & Hothers).
  - reflexivity.
  - reflexivity.
  - intros item Hitem. apply list_elem_of_singleton in Hitem. by subst item.
  - split; [exact Hcount|]. split; [by apply Hset|].
    split; [by rewrite Hkeep|]. by rewrite Hothers.
Defined.

End DemoUpdates.

Section DemoInserts.

Import Demo.

Implicit Types (w : world) (self : DemoCollection) (query : doc).

(** The one id that [==] does not relate to itself is a float NaN (see
    [py_eq_refl] and [py_eq_nan]); no field of any document equals it, so no
    document is equal to one with such an id in every field.  The store
    keeps such a document, and [find_one] with its id finds nothing. *)
Lemma insert_then_find_one_misses_nan_id :
  let query := {[ "id" := VFloat 7%nat S754_nan ]} in
  let r1 := insert_one players 0%nat "u" nan_world in
  heap nan_world !! 0%nat = Some nan_doc /\
  nan_doc !! "id" = Some (VFloat 7%nat S754_nan) /\
  items_of players nan_world = [] /\
  items_of players r1.2 = [0%nat] /\
  (find_one players query r1.2).1 = None.
Proof. vm_compute. repeat split. Qed.

(** C4: for a document [D] with an id (a value that [==] relates to itself,
    as every value but a float NaN is) and a collection in which no stored
    document has an equal id, [insert_one(D)] returns that id and
    [find_one({id: D.id})] returns a dict with the contents of [D], every
    field included; the dict is a new object, [item.copy()]. *)
Theorem insert_then_find_one_returns_copy
    self w document (D : doc) v items uuid4 :
  _demo_storage w !! name self = Some items ->
  heap w !! document = Some D ->
  D !! "id" = Some v ->
  py_eq v v = true ->
  (forall item, item ∈ items -> py_eq (get (deref w item) "id") v = false) ->
  let r1 := insert_one self document uuid4 w in
  let r2 := find_one self {[ "id" := v ]} r1.2 in
  r1.1 = Returned {| inserted_id := v |} /\
  exists copy,
    r2.1 = Some copy /\ deref r2.2 copy = D /\
    copy <> document /\ heap w !! copy = None.
Proof.
  intros Hs HD Hid Hrefl Hfresh r1 r2. subst r2 r1.
  assert (Hderef : deref w document = D)
    by (unfold deref; rewrite HD; reflexivity).
  unfold insert_one. rewrite Hs. simpl.
  split.
  { unfold get_default. rewrite Hderef, Hid. reflexivity. }
  unfold find_one, items_of. simpl. rewrite lookup_insert_eq. simpl.
  rewrite first_match_set_storage, first_match_app.
  2:{ intros item Hin. rewrite matches_singleton. by apply Hfresh. }
  simpl. rewrite matches_singleton, Hderef, (get_present _ _ _ Hid), Hrefl.
  simpl. exists (fresh (dom (heap w))).
  pose proof (is_fresh (dom (heap w))) as Hnew.
  split; [reflexivity|]. split.
  { unfold deref. simpl. rewrite lookup_insert_eq. simpl. exact Hderef. }
  split.
  - intros Heq. apply Hnew. rewrite Heq. apply elem_of_dom. eauto.
  - by apply not_elem_of_dom.
Qed.

Lemma insert_then_find_one_returns_copy_witness :
  let r1 := insert_one coaches 0%nat "u" two_coaches_world in
  let r2 := find_one coaches {[ "id" := VStr "c1" ]} r1.2 in
  r1.1 = Returned {| inserted_id := VStr "c1" |} /\
  exists copy, r2.1 = Some copy /\ deref r2.2 copy = coach_a /\
    copy <> 0%nat /\ heap two_coaches_world !! copy = None.
Proof.
  apply (insert_then_find_one_returns_copy coaches two_coaches_world 0%nat
           coach_a (VStr "c1") [] "u").
  - reflexivity.
  - reflexivity.
  - reflexivity.
  - reflexivity.
  - intros item Hin. inversion Hin.
Defined.

(** C2, as stated, fails: after [create_index("email", unique=True)] the
    second of two documents with the same email is inserted like the first,
    no [DuplicateKeyError] is raised, and the count goes from 0 to 2. *)
Lemma second_insert_with_equal_key_succeeds :
  let w0 := (create_index coaches "email" true two_coaches_world).2 in
  let r1 := insert_one coaches 0%nat "u1" w0 in
  let r2 := insert_one coaches 1%nat "u2" r1.2 in
  py_eq (get coach_a "email") (get coach_b "email") = true /\
  count_documents coaches None two_coaches_world = 0%nat /\
  r1.1 = Returned {| inserted_id := VStr "c1" |} /\
  r2.1 = Returned {| inserted_id := VStr "c2" |} /\
  count_documents coaches None r2.2 = 2%nat.
Proof. vm_compute. repeat split. Qed.

(** C2, amended: [create_index] leaves the state as it is, and after it
    two calls of [insert_one] on an existing collection both return,
    whatever the documents hold; the second one raises nothing, both
    documents are appended in order and the count increases by 2. *)
Theorem create_index_then_two_inserts
    self key w items d1 d2 uuid1 uuid2 :
  _demo_storage w !! name self = Some items ->
  let w0 := (create_index self key true w).2 in
  let r1 := insert_one self d1 uuid1 w0 in
  let r2 := insert_one self d2 uuid2 r1.2 in
  w0 = w /\
  (exists id1, r1.1 = Returned {| inserted_id := id1 |}) /\
  (exists id2, r2.1 = Returned {| inserted_id := id2 |}) /\
  items_of self r2.2 = (items ++ [d1; d2])%list /\
  count_documents self None r2.2 = (count_documents self None w + 2)%nat.
Proof.
  intros Hs w0 r1 r2.
  assert (E0 : w0 = w) by reflexivity.
  assert (E1 : r1 =
    (Returned {| inserted_id := get_default (deref w d1) "id" (VStr uuid1) |},
     set_storage (<[name self := (items ++ [d1])%list]> (_demo_storage w)) w)).
  { subst r1. rewrite E0. unfold insert_one. rewrite Hs. reflexivity. }
  assert (E2 : r2 =
    (Returned {| inserted_id := get_default (deref w d2) "id" (VStr uuid2) |},
     set_storage
       (<[name self := (items ++ [d1; d2])%list]> (_demo_storage w)) w)).
  { subst r2. rewrite E1. unfold insert_one. simpl.
    rewrite lookup_insert_eq. unfold set_storage. simpl.
    rewrite insert_insert_eq, <- app_assoc. reflexivity. }
  rewrite E1, E2. clear E1 E2 r1 r2.
  split; [exact E0|]. split; [eauto|]. split; [eauto|].
  unfold count_documents, items_of. simpl.
  rewrite lookup_insert_eq, Hs. simpl.
  split; [reflexivity|]. rewrite length_app. simpl. lia.
Qed.

Lemma create_index_then_two_inserts_witness :
  let w0 := (create_index coaches "email" true two_coaches_world).2 in
  let r1 := insert_one coaches 0%nat "u1" w0 in
  let r2 := insert_one coaches 1%nat "u2" r1.2 in
  items_of coaches r2.2 = [0%nat; 1%nat].
Proof.
  apply (create_index_then_two_inserts coaches "email" two_coaches_world
           [] 0%nat 1%nat "u1" "u2").
  reflexivity.
Defined.

End DemoInserts.

Section DemoOrder.

Import Demo.

Implicit Types (w : world) (self : DemoCollection).

(** [find] keeps the storage order: its result is the stored list with the
    documents that do not match left out. *)
Lemma find_sublist self (query : option doc) w :
  sublist (find self query w) (items_of self w).
Proof.
  unfold find. destruct (negb (truthy query)); [reflexivity|].
  induction (items_of self w) as [|x xs IH]; simpl; [constructor|].
  destruct (matches (deref w x) (default ∅ query));
    [by apply sublist_skip | by apply sublist_cons].
Qed.

(** The scenario run from the state of a new process, the documents being
    built by the caller and the collection obtained from the registry. *)
Lemma players_scenario_from_initial_state :
  let '(c, _, w) := __getitem__ new_db "players" initial_world in
  let '(l1, w) := new_dict p1 w in
  let w := (insert_one c l1 "u1" w).2 in
  let '(l2, w) := new_dict p2 w in
  let w := (insert_one c l2 "u2" w).2 in
  let verified := Some ({[ "verified" := VBool true ]} : doc) in
  let before := find c verified w in
  let counted := count_documents c (Some ∅) w in
  let '(r, w) :=
    update_one c {[ "id" := VStr "p1" ]}
      {| dollar_set := Some {[ "verified" := VBool true ]};
         other_items := ∅ |} w in
  l1 <> l2 /\
  before = [l2] /\
  counted = 2%nat /\
  modified_count r = 1%nat /\
  find c verified w = [l1; l2] /\
  deref w l1 = <["verified" := VBool true]> p1 /\
  deref w l2 = p2.
Proof. vm_compute. repeat split. discriminate. Qed.

(** C6: starting from an empty collection, insert p1 (id "p1", not
    verified), insert p2 (verified), then set p1 verified with
    [update_one({id: "p1"}, {'$set': {verified: True}})].
    [find({verified: True})] returns p2 alone before the update, and both
    documents with p1 before p2 after it: the order is that of insertion,
    whatever else the two documents and the rest of the state hold. *)
Theorem find_after_update_keeps_insertion_order
    self w l1 l2 (D1 D2 : doc) uuid1 uuid2 :
  _demo_storage w !! name self = Some [] ->
  l1 <> l2 ->
  heap w !! l1 = Some D1 ->
  heap w !! l2 = Some D2 ->
  D1 !! "id" = Some (VStr "p1") ->
  D1 !! "verified" = Some (VBool false) ->
  D2 !! "verified" = Some (VBool true) ->
  let verified := Some ({[ "verified" := VBool true ]} : doc) in
  let w1 := (insert_one self l1 uuid1 w).2 in
  let w2 := (insert_one self l2 uuid2 w1).2 in
  let r :=
    update_one self {[ "id" := VStr "p1" ]}
      {| dollar_set := Some {[ "verified" := VBool true ]};
         other_items := ∅ |} w2 in
  find self verified w2 = [l2] /\
  count_documents self (Some ∅) w2 = 2%nat /\
  modified_count r.1 = 1%nat /\
  find self verified r.2 = [l1; l2].
Proof.
  intros Hs Hne H1 H2 Hid Hv1 Hv2 verified w1 w2 r.
  assert (E2 : w2 =
    set_storage (<[name self := [l1; l2]]> (_demo_storage w)) w).
  { subst w2 w1. unfold insert_one. rewrite Hs. simpl.
    rewrite lookup_insert_eq. unfold set_storage. simpl.
    by rewrite insert_insert_eq. }
  assert (Hd1 : deref w l1 = D1) by (unfold deref; by rewrite H1).
  assert (Hd2 : deref w l2 = D2) by (unfold deref; by rewrite H2).
  assert (Hitems : items_of self w2 = [l1; l2]).
  { rewrite E2. unfold items_of. simpl. by rewrite lookup_insert_eq. }
  assert (Hm1 : matches D1 {[ "verified" := VBool true ]} = false).
  { by rewrite matches_singleton, (get_present _ _ _ Hv1). }
  assert (Hm2 : matches D2 {[ "verified" := VBool true ]} = true).
  { by rewrite matches_singleton, (get_present _ _ _ Hv2). }
  assert (Hmid : matches D1 {[ "id" := VStr "p1" ]} = true).
  { by rewrite matches_singleton, (get_present _ _ _ Hid). }
  assert (Er : r =
    ({| modified_count := 1 |},
     set_heap (<[l1 := {[ "verified" := VBool true ]} ∪ D1]> (heap w2)) w2)).
  { subst r. unfold update_one. rewrite Hitems. simpl.
    rewrite E2 at 1 2. rewrite !deref_set_storage, Hd1, Hmid.
    simpl. rewrite E2, deref_set_storage, Hd1. reflexivity. }
  clearbody r w2 w1. subst r w2. clear w1.
  unfold find, count_documents, verified. rewrite truthy_singleton.
  unfold items_of. simpl. rewrite lookup_insert_eq. simpl.
  rewrite !deref_set_storage, Hd1, Hd2, Hm1, Hm2.
  repeat split.
  unfold deref. simpl. rewrite lookup_insert_eq. simpl.
  rewrite lookup_insert_ne by done. rewrite H2. simpl. rewrite Hm2.
  rewrite matches_singleton.
  rewrite (get_present _ "verified" (VBool true)); [reflexivity|].
  apply lookup_union_Some_l. apply lookup_singleton_eq.
Qed.

Lemma find_after_update_keeps_insertion_order_witness :
  let verified := Some ({[ "verified" := VBool true ]} : doc) in
  let w1 := (insert_one players 0%nat "u1" two_players_world).2 in
  let w2 := (insert_one players 1%nat "u2" w1).2 in
  let r :=
    update_one players {[ "id" := VStr "p1" ]}
      {| dollar_set := Some {[ "verified" := VBool true ]};
         other_items := ∅ |} w2 in
  find players verified w2 = [1%nat] /\
  count_documents players (Some ∅) w2 = 2%nat /\
  modified_count r.1 = 1%nat /\
  find players verified r.2 = [0%nat; 1%nat].
Proof.
  apply (find_after_update_keeps_insertion_order players two_players_world
           0%nat 1%nat p1 p2 "u1" "u2").
  - reflexivity.
  - discriminate.
  - reflexivity.
  - reflexivity.
  - reflexivity.
  - reflexivity.
  - reflexivity.
Defined.

End DemoOrder.

(** ** The table-service store: what a failing request turns into *)

Section SupabaseFailures.

Import Supabase.

Variable execute : request -> outcome response.

Implicit Types (self : SupabaseCollection) (e : exn).

(** None of the three reading operations ever raises. *)
Lemma reads_always_return self (query : doc) (oquery : option doc) :
  (exists r, (find_one execute self query).1 = Returned r) /\
  (exists r, (find execute self oquery).1 = Returned r) /\
  (exists r, (count_documents execute self oquery).1 = Returned r).
Proof.
  unfold find_one, find, count_documents. repeat split.
  - destruct (execute _) as [[[[|row rows]|] cnt]|e]; simpl; eauto.
  - destruct (execute _) as [[[[|row rows]|] cnt]|e]; simpl; eauto.
  - destruct (execute _) as [resp|e]; simpl; eauto.
Qed.



(** [insert_one] is the one operation that lets the failure through. *)
Lemma insert_one_reraises isoformat self (document : doc) uuid4 e :
  (forall r, execute r = Raised e) ->
  (insert_one execute isoformat self document uuid4).1 = Raised e.
Proof. intros Hfail. unfold insert_one. rewrite Hfail. reflexivity. Qed.

End SupabaseFailures.

Section SupabaseFailureExamples.

Import Supabase.





End SupabaseFailureExamples.

(** ** The registries *)

Section DemoRegistry.

Import Demo.

Implicit Types (db : DemoDB) (w : world) (nm : string) (c : DemoCollection).

Lemma demo_getitem_cached db nm w c :
  _collections db !! nm = Some c -> __getitem__ db nm w = (c, db, w).
Proof. intros H. unfold __getitem__. rewrite H. reflexivity. Qed.

Lemma demo_getitem_caches db nm w :
  _collections (__getitem__ db nm w).1.2 !! nm
  = Some (__getitem__ db nm w).1.1.
Proof.
  unfold __getitem__. destruct (_collections db !! nm) as [c|] eqn:E.
  - exact E.
  - simpl. apply lookup_insert_eq.
Qed.

Lemma demo_getitem_keeps db nm nm' w c :
  _collections db !! nm = Some c ->
  _collections (__getitem__ db nm' w).1.2 !! nm = Some c.
Proof.
  intros H. unfold __getitem__.
  destruct (_collections db !! nm') as [c'|] eqn:E; [exact H|]. simpl.
  rewrite lookup_insert_ne; [exact H|]. intros ->. congruence.
Qed.

(** Requests for other names in between do not disturb a cached object. *)
Lemma demo_requests_keep db w nm c (others : list string) :
  _collections db !! nm = Some c ->
  _collections
    (foldl (fun s nm' => ((__getitem__ s.1 nm' s.2).1.2,
                          (__getitem__ s.1 nm' s.2).2))
           (db, w) others).1 !! nm = Some c.
Proof.
  revert db w. induction others as [|nm' rest IH]; intros db w H;
    [exact H|].
  simpl. apply IH. by apply demo_getitem_keeps.
Qed.

(** Contrast: [DemoCollection(name)] called twice makes two objects. *)
Lemma demo_init_twice_differs nm w :
  (__init__ nm w).1 <> (__init__ nm (__init__ nm w).2).1.
Proof.
  unfold __init__. simpl. intros H. injection H as H.
  destruct (_demo_storage w !! nm); simpl in H; lia.
Qed.

End DemoRegistry.

Section SupabaseRegistry.

Import Supabase.

Implicit Types (db : SupabaseDB) (nm : string) (c : SupabaseCollection).

Lemma supabase_getitem_cached db nm n c :
  _tables db !! nm = Some c -> __getitem__ db nm n = (c, db, n).
Proof. intros H. unfold __getitem__. rewrite H. reflexivity. Qed.

Lemma supabase_getitem_caches db nm n :
  _tables (__getitem__ db nm n).1.2 !! nm = Some (__getitem__ db nm n).1.1.
Proof.
  unfold __getitem__. destruct (_tables db !! nm) as [c|] eqn:E.
  - exact E.
  - simpl. apply lookup_insert_eq.
Qed.

Lemma supabase_getitem_keeps db nm nm' n c :
  _tables db !! nm = Some c ->
  _tables (__getitem__ db nm' n).1.2 !! nm = Some c.
Proof.
  intros H. unfold __getitem__.
  destruct (_tables db !! nm') as [c'|] eqn:E; [exact H|]. simpl.
  rewrite lookup_insert_ne; [exact H|]. intros ->. congruence.
Qed.

Lemma supabase_requests_keep db n nm c (others : list string) :
  _tables db !! nm = Some c ->
  _tables
    (foldl (fun s nm' => ((__getitem__ s.1 nm' s.2).1.2,
                          (__getitem__ s.1 nm' s.2).2))
           (db, n) others).1 !! nm = Some c.
Proof.
  revert db n. induction others as [|nm' rest IH]; intros db n H;
    [exact H|].
  simpl. apply IH. by apply supabase_getitem_keeps.
Qed.

End SupabaseRegistry.

(** C8: asking a registry for the collection named [nm] twice gives the
    same object (same identity, same name), also when collections of other
    names are requested in between, and the second request changes neither
    the registry nor the rest of the state.  This holds for [DemoDB] and
    for [SupabaseDB]. *)
Theorem registry_returns_same_instance (nm : string) (others : list string) :
  (forall (db : Demo.DemoDB) (w : Demo.world),
     let r1 := Demo.__getitem__ db nm w in
     let s :=
       foldl (fun s nm' => ((Demo.__getitem__ s.1 nm' s.2).1.2,
                            (Demo.__getitem__ s.1 nm' s.2).2))
             (r1.1.2, r1.2) others in
     Demo.__getitem__ s.1 nm s.2 = (r1.1.1, s.1, s.2)) /\
  (forall (db : Supabase.SupabaseDB) (n : loc),
     let r1 := Supabase.__getitem__ db nm n in
     let s :=
       foldl (fun s nm' => ((Supabase.__getitem__ s.1 nm' s.2).1.2,
                            (Supabase.__getitem__ s.1 nm' s.2).2))
             (r1.1.2, r1.2) others in
     Supabase.__getitem__ s.1 nm s.2 = (r1.1.1, s.1, s.2)).
Proof.
  split.
  - intros db w r1 s. apply demo_getitem_cached. subst s.
    apply demo_requests_keep. subst r1. apply demo_getitem_caches.
  - intros db n r1 s. apply supabase_getitem_cached. subst s.
    apply supabase_requests_keep. subst r1. apply supabase_getitem_caches.
Qed.

(** ** More about the in-memory store: deleting *)

Section DemoDeletes.

Import Demo.

Implicit Types (w : world) (self : DemoCollection) (query : doc).

Lemma first_index_app w query i before rest :
  (forall item, item ∈ before -> matches (deref w item) query = false) ->
  first_index w query i (before ++ rest)
  = first_index w query (i + length before) rest.
Proof.
  revert i. induction before as [|x xs IH]; intros i H; simpl.
  - by rewrite Nat.add_0_r.
  - rewrite (H x (list_elem_of_here _ _)), IH.
    + f_equal. lia.
    + intros item Hin. apply H. by right.
Qed.

Lemma first_index_None_iff w query i items :
  first_index w query i items = None <->
  forall item, item ∈ items -> matches (deref w item) query = false.
Proof. rewrite first_index_first_match. apply first_match_None. Qed.

Lemma world_eta w : World (heap w) (_demo_storage w) (next_oid w) = w.
Proof. by destruct w. Qed.

(** X1: [delete_one] removes the first stored entry whose document
    satisfies the query, and nothing else: the entries before and after it
    keep their order, the dict objects are untouched, and the result reports
    one deletion. *)
Theorem delete_one_removes_first_match self query w before t after :
  _demo_storage w !! name self = Some (before ++ t :: after)%list ->
  matches (deref w t) query = true ->
  (forall item, item ∈ before -> matches (deref w item) query = false) ->
  delete_one self query w =
    ({| deleted_count := 1 |},
     set_storage (<[name self := (before ++ after)%list]> (_demo_storage w))
       w).
Proof.
  intros Hs Ht Hbefore. unfold delete_one. rewrite Hs.
  rewrite (first_index_app _ _ _ _ _ Hbefore). simpl. rewrite Ht.
  by rewrite delete_middle.
Qed.

Lemma delete_one_removes_first_match_witness :
  delete_one players {[ "verified" := VBool false ]} one_player_world =
    ({| deleted_count := 1 |},
     set_storage (<["players" := []]> (_demo_storage one_player_world))
       one_player_world).
Proof.
  apply (delete_one_removes_first_match players _ one_player_world
           [] 0%nat []).
  - reflexivity.
  - reflexivity.
  - intros item Hin. inversion Hin.
Defined.

(** X2: a query that no stored document satisfies changes nothing:
    [update_one] and [delete_one] report 0 and leave the state as it was,
    [find_one] returns [None] without building a dict, [find] returns the
    empty list and [count_documents] 0. *)
Theorem unmatched_query_changes_nothing self query update w :
  (forall item, item ∈ items_of self w ->
     matches (deref w item) query = false) ->
  update_one self query update w = ({| modified_count := 0 |}, w) /\
  delete_one self query w = ({| deleted_count := 0 |}, w) /\
  find_one self query w = (None, w) /\
  (truthy (Some query) = true ->
   find self (Some query) w = [] /\
   count_documents self (Some query) w = 0%nat).
Proof.
  intros Hnone.
  assert (Hfm : first_match w query (items_of self w) = None)
    by (by apply first_match_None).
  unfold update_one, delete_one, find_one, find, count_documents.
  rewrite Hfm. split; [reflexivity|]. split; [|split; [reflexivity|]].
  - unfold items_of in Hnone.
    destruct (_demo_storage w !! name self) as [items|]; [|reflexivity].
    simpl in Hnone.
    by rewrite (proj2 (first_index_None_iff w query 0 items) Hnone).
  - intros Ht. rewrite Ht. simpl.
    assert (Hf : List.filter (fun item => matches (deref w item) query)
                   (items_of self w) = []).
    { clear Hfm. revert Hnone. generalize (items_of self w).
      intros items Hnone. induction items as [|x xs IH]; [reflexivity|].
      simpl. rewrite (Hnone x (list_elem_of_here _ _)). apply IH.
      intros item Hin. apply Hnone. by right. }
    rewrite Hf. split; reflexivity.
Qed.

Lemma unmatched_query_changes_nothing_witness :
  delete_one players {[ "id" := VStr "p9" ]} one_player_world
  = ({| deleted_count := 0 |}, one_player_world).
Proof.
  apply (unmatched_query_changes_nothing players {[ "id" := VStr "p9" ]}
           set_verified one_player_world).
  intros item Hin. vm_compute in Hin.
  inversion Hin as [|? ? ? Hin']; subst; [reflexivity | inversion Hin'].
Defined.

(** X3: inserting a document and then deleting by its id gives back the
    state before the insertion, when the id equals itself and no stored
    document has an equal id. *)
Theorem insert_then_delete_restores_state
    self w document (D : doc) v items uuid4 :
  _demo_storage w !! name self = Some items ->
  heap w !! document = Some D ->
  D !! "id" = Some v ->
  py_eq v v = true ->
  (forall item, item ∈ items -> py_eq (get (deref w item) "id") v = false) ->
  delete_one self {[ "id" := v ]} (insert_one self document uuid4 w).2
  = ({| deleted_count := 1 |}, w).
Proof.
  intros Hs HD Hid Hrefl Hfresh.
  assert (Hderef : deref w document = D)
    by (unfold deref; rewrite HD; reflexivity).
  unfold insert_one. rewrite Hs. simpl.
  rewrite (delete_one_removes_first_match self _ _ items document []).
  - f_equal. unfold set_storage. simpl.
    rewrite insert_insert_eq, app_nil_r, (insert_id _ _ _ Hs).
    apply world_eta.
  - simpl. by rewrite lookup_insert_eq.
  - rewrite deref_set_storage, matches_singleton, Hderef,
      (get_present _ _ _ Hid). exact Hrefl.
  - intros item Hin. rewrite deref_set_storage, matches_singleton.
    by apply Hfresh.
Qed.

Lemma insert_then_delete_restores_state_witness :
  delete_one coaches {[ "id" := VStr "c1" ]}
    (insert_one coaches 0%nat "u" two_coaches_world).2
  = ({| deleted_count := 1 |}, two_coaches_world).
Proof.
  apply (insert_then_delete_restores_state coaches two_coaches_world 0%nat
           coach_a (VStr "c1") [] "u").
  - reflexivity.
  - reflexivity.
  - reflexivity.
  - reflexivity.
  - intros item Hin. inversion Hin.
Defined.

End DemoDeletes.

(** ** More about the in-memory store: reading after writing *)

Section DemoReads.

Import Demo.

Implicit Types (w : world) (self : DemoCollection) (query : doc).

(** X4: [find_one] hands out a dict of its own.  When [t] is the first
    stored document, in storage order, that satisfies the query, the
    returned object did not exist before the call and holds what [t] holds;
    when no stored document satisfies the query the result is [None] and
    the state is what it was.  The call changes neither a stored list nor a
    dict that existed.  [find], in contrast, returns stored objects
    themselves. *)
Theorem find_one_returns_private_copy self query (oquery : option doc) w :
  let stored := default [] (_demo_storage w !! name self) in
  let r := find_one self query w in
  _demo_storage r.2 = _demo_storage w /\
  (forall l, is_Some (heap w !! l) -> heap r.2 !! l = heap w !! l) /\
  (forall before t after,
     stored = (before ++ t :: after)%list ->
     matches (deref w t) query = true ->
     (forall item, item ∈ before -> matches (deref w item) query = false) ->
     exists copy,
       r.1 = Some copy /\ heap w !! copy = None /\
       heap r.2 !! copy = Some (deref w t)) /\
  ((forall item, item ∈ stored -> matches (deref w item) query = false) ->
   r = (None, w)) /\
  (forall l, l ∈ find self oquery w -> l ∈ stored).
Proof.
  intros stored r. subst r. unfold find_one, items_of. fold stored.
  pose proof (is_fresh (dom (heap w))) as Hnew.
  apply not_elem_of_dom in Hnew.
  split; [|split; [|split; [|split]]].
  - destruct (first_match w query stored); reflexivity.
  - intros l [d Hl].
    destruct (first_match w query stored); [|reflexivity].
    apply lookup_insert_ne. intros <-. congruence.
  - intros before t after Hsplit Ht Hbefore.
    rewrite Hsplit, (first_match_at _ _ _ _ _ Ht Hbefore).
    exists (fresh (dom (heap w))). split; [reflexivity|].
    split; [exact Hnew | apply lookup_insert_eq].
  - intros Hnone. apply first_match_None in Hnone. by rewrite Hnone.
  - intros l Hl. eapply elem_of_sublist; [exact Hl | apply find_sublist].
Qed.

(** X5: [insert_one] on an existing collection raises [count_documents] by
    one for a query the new document satisfies (and for no query), and
    leaves it as it was for a query it does not satisfy. *)
Theorem insert_one_adds_one_to_matching_counts
    self document uuid4 (oquery : option doc) w items :
  _demo_storage w !! name self = Some items ->
  count_documents self oquery (insert_one self document uuid4 w).2 =
    (count_documents self oquery w +
     if negb (truthy oquery) || matches (deref w document) (default ∅ oquery)
     then 1 else 0)%nat.
Proof.
  intros Hs. unfold insert_one. rewrite Hs. simpl.
  unfold count_documents, items_of. simpl. rewrite lookup_insert_eq, Hs.
  simpl. destruct (negb (truthy oquery)); simpl.
  - rewrite length_app. reflexivity.
  - rewrite !count_ones, List.filter_app, length_app. simpl.
    rewrite deref_set_storage.
    assert (Hsame :
      List.filter
        (fun item =>
           matches (deref (set_storage
             (<[name self := (items ++ [document])%list]> (_demo_storage w))
             w) item) (default ∅ oquery)) items
      = List.filter (fun item => matches (deref w item) (default ∅ oquery))
          items) by reflexivity.
    rewrite Hsame.
    by destruct (matches (deref w document) (default ∅ oquery)).
Qed.

Lemma insert_one_adds_one_to_matching_counts_witness :
  count_documents coaches (Some {[ "id" := VStr "c1" ]})
    (insert_one coaches 0%nat "u" two_coaches_world).2 = 1%nat.
Proof.
  rewrite (insert_one_adds_one_to_matching_counts coaches 0%nat "u"
             (Some {[ "id" := VStr "c1" ]}) two_coaches_world [])
    by reflexivity.
  reflexivity.
Defined.

Lemma py_eq_dict_r v kvs :
  py_eq v (VDict kvs) = true -> exists kws, v = VDict kws.
Proof. destruct v; simpl; try discriminate; eauto. Qed.

(** X6: a query value that is a dict, such as the MongoDB operator
    documents [{"$ne": x}], [{"$regex": s}] or [{"$gte": t}], is compared
    like any other value: a stored document whose field is missing or holds
    anything but a dict never satisfies the query. *)
Theorem operator_dict_is_compared_literally (item query : doc) k kvs :
  query !! k = Some (VDict kvs) ->
  (forall kws, get item k <> VDict kws) ->
  matches item query = false.
Proof.
  intros Hq Hnot. destruct (matches item query) eqn:E; [|reflexivity].
  rewrite matches_spec in E. specialize (E k _ Hq).
  apply py_eq_dict_r in E as [kws Hk]. by destruct (Hnot kws).
Qed.

Lemma operator_dict_is_compared_literally_witness :
  matches p1 {[ "grad_class" := VDict [("$ne", VStr "2030")] ]} = false.
Proof.
  apply (operator_dict_is_compared_literally p1 _ "grad_class"
           [("$ne", VStr "2030")]).
  - reflexivity.
  - intros kws. vm_compute. discriminate.
Defined.

End DemoReads.

(** ** More about the in-memory store: names, objects and the registry *)

Section DemoNames.

Import Demo.

Implicit Types (w : world) (self : DemoCollection) (query : doc).

Lemma first_match_after_set w query (S : doc) items t :
  first_match w query items = Some t ->
  (forall k, is_Some (query !! k) -> S !! k = None) ->
  first_match (set_heap (<[t := S ∪ deref w t]> (heap w)) w) query items
  = Some t.
Proof.
  intros Hfm Hkeys.
  destruct (first_match_split _ _ _ _ Hfm)
    as (before & after & -> & Ht & Hbefore).
  rewrite first_match_app.
  - simpl. rewrite deref_set_heap_eq.
    assert (Hm : matches (S ∪ deref w t) query = true).
    { apply matches_spec. intros k v Hk.
      rewrite matches_spec in Ht. specialize (Ht k v Hk).
      unfold get in *. rewrite lookup_union_r; [exact Ht|].
      apply Hkeys. eauto. }
    by rewrite Hm.
  - intros item Hin.
    assert (Hne : t <> item).
    { intros <-. rewrite (Hbefore _ Hin) in Ht. discriminate. }
    unfold deref at 1. simpl. rewrite lookup_insert_ne by exact Hne.
    by apply Hbefore.
Qed.

(** X7: after [update_one(query, {'$set': S})] has changed a document,
    [find_one] with the same query returns that document with its new
    contents ([S] laid over what it held), provided [S] sets none of the
    fields the query tests. *)
Theorem update_then_find_one_reads_new_values
    self query (S : doc) (others : gmap string value) w t :
  first_match w query (items_of self w) = Some t ->
  (forall k, is_Some (query !! k) -> S !! k = None) ->
  let w1 :=
    (update_one self query
       {| dollar_set := Some S; other_items := others |} w).2 in
  let r := find_one self query w1 in
  exists copy, r.1 = Some copy /\ deref r.2 copy = S ∪ deref w t.
Proof.
  intros Hfm Hkeys w1 r. subst r w1. unfold update_one. rewrite Hfm.
  simpl. unfold find_one.
  change (items_of self (set_heap (<[t := S ∪ deref w t]> (heap w)) w))
    with (items_of self w).
  rewrite (first_match_after_set _ _ _ _ _ Hfm Hkeys). simpl.
  eexists. split; [reflexivity|].
  unfold deref at 1. simpl. rewrite lookup_insert_eq. simpl.
  apply deref_set_heap_eq.
Qed.

Lemma update_then_find_one_reads_new_values_witness :
  let w1 := (update_one players {[ "id" := VStr "p1" ]}
               {| dollar_set := Some {[ "verified" := VBool true ]};
                  other_items := ∅ |} one_player_world).2 in
  let r := find_one players {[ "id" := VStr "p1" ]} w1 in
  exists copy, r.1 = Some copy /\
    deref r.2 copy = {[ "verified" := VBool true ]} ∪ p1.
Proof.
  apply (update_then_find_one_reads_new_values players
           {[ "id" := VStr "p1" ]} {[ "verified" := VBool true ]} ∅
           one_player_world 0%nat).
  - reflexivity.
  - intros k [v Hk]. apply lookup_singleton_Some in Hk as [<- _].
    reflexivity.
Defined.

Lemma same_name_same_operations c1 c2 :
  name c1 = name c2 ->
  (forall q w, find c1 q w = find c2 q w) /\
  (forall q w, count_documents c1 q w = count_documents c2 q w) /\
  (forall q w, find_one c1 q w = find_one c2 q w) /\
  (forall d u w, insert_one c1 d u w = insert_one c2 d u w) /\
  (forall q u w, update_one c1 q u w = update_one c2 q u w) /\
  (forall q w, delete_one c1 q w = delete_one c2 q w).
Proof.
  destruct c1 as [o1 n1], c2 as [o2 n2]. simpl. intros ->.
  repeat split.
Qed.

(** X8: documents belong to a collection name, not to a collection object.
    [DemoCollection.__getattr__] builds a new object at every call, so two
    accesses to the same sub-collection give two different objects; yet
    every operation through one gives what it gives through the other. *)
Theorem subcollection_objects_differ_but_share_documents
    self (nm : string) w :
  let a := __getattr__ self nm w in
  let b := __getattr__ self nm a.2 in
  a.1 <> b.1 /\
  name a.1 = (name self ++ "." ++ nm)%string /\
  (forall q w', find a.1 q w' = find b.1 q w') /\
  (forall q w', count_documents a.1 q w' = count_documents b.1 q w') /\
  (forall q w', find_one a.1 q w' = find_one b.1 q w') /\
  (forall d u w', insert_one a.1 d u w' = insert_one b.1 d u w') /\
  (forall q u w', update_one a.1 q u w' = update_one b.1 q u w') /\
  (forall q w', delete_one a.1 q w' = delete_one b.1 q w').
Proof.
  intros a b. split; [apply demo_init_twice_differs|].
  split; [reflexivity|].
  apply same_name_same_operations. reflexivity.
Qed.

End DemoNames.

Section DemoRegistryInvariant.

Import Demo.

Implicit Types (db : DemoDB) (w : world) (self : DemoCollection).

(** No operation removes a name from [_demo_storage]. *)
Lemma storage_names_persist w n :
  is_Some (_demo_storage w !! n) ->
  (forall self d u, is_Some (_demo_storage (insert_one self d u w).2 !! n)) /\
  (forall self q u, is_Some (_demo_storage (update_one self q u w).2 !! n)) /\
  (forall self q, is_Some (_demo_storage (delete_one self q w).2 !! n)) /\
  (forall self q, is_Some (_demo_storage (find_one self q w).2 !! n)) /\
  (forall nm, is_Some (_demo_storage (__init__ nm w).2 !! n)).
Proof.
  intros Hn. repeat split.
  - intros self d u. unfold insert_one.
    destruct (_demo_storage w !! name self) eqn:E; simpl; [|exact Hn].
    apply lookup_insert_is_Some'. by right.
  - intros self q u. unfold update_one.
    destruct (first_match w q (items_of self w)); simpl; [|exact Hn].
    destruct (dollar_set u); exact Hn.
  - intros self q. unfold delete_one.
    destruct (_demo_storage w !! name self) eqn:E; simpl; [|exact Hn].
    destruct (first_index w q 0 l); simpl; [|exact Hn].
    apply lookup_insert_is_Some'. by right.
  - intros self q. unfold find_one.
    destruct (first_match w q (items_of self w)); exact Hn.
  - intros nm. unfold __init__.
    destruct (_demo_storage w !! nm) eqn:E; simpl; [exact Hn|].
    apply lookup_insert_is_Some'. by right.
Qed.

Lemma registry_ok_storage db w w' :
  registry_ok db w ->
  (forall n, is_Some (_demo_storage w !! n) ->
             is_Some (_demo_storage w' !! n)) ->
  registry_ok db w'.
Proof.
  intros Hok Hkeep nm c Hc. destruct (Hok nm c Hc) as [Hname Hs].
  split; [exact Hname | by apply Hkeep].
Qed.

(** X9: the registry keeps its collections usable.  A new [DemoDB] is
    sound; [DemoDB.__getitem__] keeps a sound registry sound and returns a
    collection object of the requested name on which [insert_one] returns
    (the [KeyError] of the subscript cannot happen); and no operation of a
    collection breaks the soundness. *)
Theorem registered_collection_accepts_inserts
    db nm w (document : loc) (uuid4 : string) :
  registry_ok db w ->
  let r := __getitem__ db nm w in
  registry_ok r.1.2 r.2 /\
  name r.1.1 = nm /\
  (exists res, (insert_one r.1.1 document uuid4 r.2).1 = Returned res) /\
  (forall self d u, registry_ok db (insert_one self d u w).2) /\
  (forall self q u, registry_ok db (update_one self q u w).2) /\
  (forall self q, registry_ok db (delete_one self q w).2) /\
  (forall self q, registry_ok db (find_one self q w).2) /\
  (forall w0, registry_ok new_db w0).
Proof.
  intros Hok r. subst r.
  assert (Hget :
    registry_ok (__getitem__ db nm w).1.2 (__getitem__ db nm w).2 /\
    name (__getitem__ db nm w).1.1 = nm /\
    is_Some (_demo_storage (__getitem__ db nm w).2
               !! name (__getitem__ db nm w).1.1)).
  { unfold __getitem__.
    destruct (_collections db !! nm) as [c|] eqn:E; simpl.
    - destruct (Hok nm c E) as [Hname Hs]. rewrite Hname. auto.
    - assert (Hnew : is_Some (_demo_storage (__init__ nm w).2 !! nm)).
      { unfold __init__. destruct (_demo_storage w !! nm) eqn:E'; simpl.
        - rewrite E'. eauto.
        - rewrite lookup_insert_eq. eauto. }
      split; [|split; [reflexivity | exact Hnew]].
      intros n c. simpl. rewrite lookup_insert.
      destruct (decide (nm = n)) as [<-|Hne].
      + intros [= <-]. split; [reflexivity | exact Hnew].
      + intros Hc. destruct (Hok n c Hc) as [Hname Hs].
        split; [exact Hname|].
        by apply (storage_names_persist w n Hs). }
  destruct Hget as (Hok' & Hname & Hs).
  split; [exact Hok'|]. split; [exact Hname|]. split.
  { unfold insert_one. destruct Hs as [items ->]. simpl. eauto. }
  split; [|split; [|split; [|split]]].
  - intros self d u. apply (registry_ok_storage db w); [exact Hok|].
    intros n Hn. by apply (storage_names_persist w n Hn).
  - intros self q u. apply (registry_ok_storage db w); [exact Hok|].
    intros n Hn. by apply (storage_names_persist w n Hn).
  - intros self q. apply (registry_ok_storage db w); [exact Hok|].
    intros n Hn. by apply (storage_names_persist w n Hn).
  - intros self q. apply (registry_ok_storage db w); [exact Hok|].
    intros n Hn. by apply (storage_names_persist w n Hn).
  - intros w0 n c Hc. simpl in Hc. by rewrite lookup_empty in Hc.
Qed.

Lemma registered_collection_accepts_inserts_witness :
  let r := __getitem__ new_db "deliverables" two_coaches_world in
  exists res, (insert_one r.1.1 0%nat "u" r.2).1 = Returned res.
Proof.
  apply (registered_collection_accepts_inserts new_db "deliverables"
           two_coaches_world 0%nat "u").
  intros n c Hc. simpl in Hc. by rewrite lookup_empty in Hc.
Defined.

(** X10: asking a registry for a collection never touches a document: the
    dict objects are what they were, and every collection, whatever its
    name, lists the documents it listed (a collection created by the call
    starts with the empty list that a missing name already read as). *)
Theorem getitem_keeps_documents db nm w :
  let r := __getitem__ db nm w in
  heap r.2 = heap w /\
  forall self, items_of self r.2 = items_of self w.
Proof.
  intros r. subst r. unfold __getitem__.
  destruct (_collections db !! nm) as [c|] eqn:E; [split; reflexivity|].
  simpl. unfold __init__, items_of.
  destruct (_demo_storage w !! nm) as [items|] eqn:E'; simpl;
    [split; reflexivity|].
  split; [reflexivity|]. intros self. rewrite lookup_insert.
  destruct (decide (nm = name self)) as [->|];
    [by rewrite E' | reflexivity].
Qed.

End DemoRegistryInvariant.

Section DemoEmptyQuery.

Import Demo.

Implicit Types (w : world) (self : DemoCollection).

(** X11: the empty query [{}] is satisfied by every document.  On a
    collection that is not empty, [find_one({})] returns a copy of the
    oldest stored document, [update_one({}, {'$set': S})] changes that
    document, [delete_one({})] removes it, and [find({})] and
    [count_documents({})] cover the whole collection. *)
Theorem empty_query_selects_oldest_document
    self w t rest (fields : doc) (others : gmap string value) :
  _demo_storage w !! name self = Some (t :: rest) ->
  (exists copy, (find_one self ∅ w).1 = Some copy /\
                deref (find_one self ∅ w).2 copy = deref w t) /\
  update_one self ∅ {| dollar_set := Some fields; other_items := others |} w =
    ({| modified_count := 1 |},
     set_heap (<[t := fields ∪ deref w t]> (heap w)) w) /\
  delete_one self ∅ w =
    ({| deleted_count := 1 |},
     set_storage (<[name self := rest]> (_demo_storage w)) w) /\
  find self (Some ∅) w = t :: rest /\
  count_documents self (Some ∅) w = S (length rest).
Proof.
  intros Hs.
  assert (Hitems : items_of self w = t :: rest)
    by (unfold items_of; by rewrite Hs).
  unfold find_one, update_one, delete_one, find, count_documents.
  rewrite Hitems, Hs. simpl. rewrite matches_empty. simpl.
  split; [|repeat split].
  eexists. split; [reflexivity|].
  unfold deref at 1. simpl. by rewrite lookup_insert_eq.
Qed.

Lemma empty_query_selects_oldest_document_witness :
  delete_one players ∅ one_player_world =
    ({| deleted_count := 1 |},
     set_storage (<["players" := []]> (_demo_storage one_player_world))
       one_player_world).
Proof.
  apply (empty_query_selects_oldest_document players one_player_world
           0%nat [] ∅ ∅).
  reflexivity.
Defined.

End DemoEmptyQuery.

(** ** More about the table-service store *)

Section SupabaseRequests.

Import Supabase.

Implicit Types (self : SupabaseCollection) (query : doc) (qb : request).

Lemma eq_all_fold (kvs : list (string * value)) qb :
  foldl (fun qb kv => eq_ kv.1 kv.2 qb) qb kvs =
  Request (table qb) (action qb) (filters qb ++ kvs)%list (row_limit qb).
Proof.
  revert qb. induction kvs as [|[k v] kvs IH]; intros qb; simpl.
  - rewrite app_nil_r. by destruct qb.
  - rewrite IH. unfold eq_. simpl. by rewrite <- app_assoc.
Qed.

Lemma eq_all_request query qb :
  eq_all query qb =
  Request (table qb) (action qb) (filters qb ++ map_to_list query)%list
    (row_limit qb).
Proof. apply eq_all_fold. Qed.

(** X12: the loop [for key, value in query.items(): qb = qb.eq(key, value)]
    keeps the filters the builder had, in their order, and puts after them
    exactly one equality filter for every item of the query and no other;
    it changes neither the table, nor the verb, nor the row limit. *)
Theorem eq_all_adds_one_filter_per_item query qb :
  table (eq_all query qb) = table qb /\
  action (eq_all query qb) = action qb /\
  row_limit (eq_all query qb) = row_limit qb /\
  exists added,
    filters (eq_all query qb) = (filters qb ++ added)%list /\
    length added = size query /\
    NoDup added.*1 /\
    (forall k v, (k, v) ∈ added <-> query !! k = Some v).
Proof.
  rewrite eq_all_request. simpl.
  split; [reflexivity|]. split; [reflexivity|]. split; [reflexivity|].
  exists (map_to_list query). split; [reflexivity|].
  split; [apply length_map_to_list|].
  split; [apply NoDup_fst_map_to_list|].
  intros k v. apply elem_of_map_to_list.
Qed.

Section WithClient.

Variable execute : request -> outcome response.
Variable isoformat : Z -> string.

(** X13: [insert_one] is the only operation through which a failure of
    the service reaches the caller.  The other five always return; and
    [insert_one] raises exactly when its request fails, with the exception
    of the service. *)
Theorem only_insert_one_raises
    self query (oquery : option doc) (update : update_doc)
    (document : doc) (uuid4 : string) :
  (exists r, (find_one execute self query).1 = Returned r) /\
  (exists r, (find execute self oquery).1 = Returned r) /\
  (exists r, (count_documents execute self oquery).1 = Returned r) /\
  (exists r, (update_one execute self query update).1 = Returned r) /\
  (exists r, (delete_one execute self query).1 = Returned r) /\
  (forall e,
     (insert_one execute isoformat self document uuid4).1 = Raised e <->
     execute
       (Request (table_name self)
          (Insert
             ((fun v => match v with
                        | VDatetime t => VStr (isoformat t)
                        | _ => v
                        end) <$> document)) [] None) = Raised e).
Proof.
  unfold find_one, find, count_documents, update_one, delete_one,
    insert_one.
  split; [|split; [|split; [|split; [|split]]]].
  - destruct (execute _) as [[[[|row rows]|] cnt]|e]; simpl; eauto.
  - destruct (execute _) as [[[[|row rows]|] cnt]|e]; simpl; eauto.
  - destruct (execute _) as [resp|e]; simpl; eauto.
  - destruct (execute _) as [resp|e]; simpl; eauto.
  - destruct (execute _) as [resp|e]; simpl; eauto.
  - intros e. destruct (execute _) as [resp|e']; simpl.
    + split; discriminate.
    + split; intros [= ->]; reflexivity.
Qed.

(** X14: what the five swallowing operations tell about a failure is in
    the log alone.  Each of them either logs nothing, or logs one line and
    returns its empty result ([None], [[]], 0, a count of 0); and when the
    service answers every request, they log nothing. *)
Theorem failure_shows_only_in_log
    self query (oquery : option doc) (update : update_doc) :
  let quiet {A} (r : outcome A * log) (empty : A) :=
    r.2 = [] \/ (r.1 = Returned empty /\ exists line, r.2 = [line]) in
  quiet (find_one execute self query) None /\
  quiet (find execute self oquery) [] /\
  quiet (count_documents execute self oquery) 0%nat /\
  quiet (update_one execute self query update) {| modified_count := 0 |} /\
  quiet (delete_one execute self query) {| deleted_count := 0 |} /\
  ((forall r, exists resp, execute r = Returned resp) ->
   (find_one execute self query).2 = [] /\
   (find execute self oquery).2 = [] /\
   (count_documents execute self oquery).2 = [] /\
   (update_one execute self query update).2 = [] /\
   (delete_one execute self query).2 = []).
Proof.
  intros quiet. subst quiet. simpl.
  unfold find_one, find, count_documents, update_one, delete_one.
  split; [|split; [|split; [|split; [|split]]]].
  - destruct (execute _) as [[[[|row rows]|] cnt]|e]; simpl; eauto.
  - destruct (execute _) as [[[[|row rows]|] cnt]|e]; simpl; eauto.
  - destruct (execute _) as [resp|e]; simpl; eauto.
  - destruct (execute _) as [resp|e]; simpl; eauto.
  - destruct (execute _) as [resp|e]; simpl; eauto.
  - intros Hok.
    repeat match goal with
    | |- context [execute ?r] =>
        let resp := fresh "resp" in
        let E := fresh "E" in
        destruct (Hok r) as [resp E]; rewrite E; clear E
    end.
    repeat split;
      repeat match goal with
      | |- context [data ?r] => destruct (data r) as [[|? ?]|]
      end; reflexivity.
Qed.

End WithClient.

End SupabaseRequests.

Section SupabaseWrites.

Import Supabase.

Variable execute : request -> outcome response.
Variable isoformat : Z -> string.

Implicit Types (self : SupabaseCollection) (query : doc).

(** X15: [update_one] and [delete_one] send a request without a row
    limit, filtered by one equality per query item, and report as many
    rows as the service returns, which can be more than one.  The patch of
    [update_one] is the mapping under ['$set'] when there is one, and
    otherwise the update dict itself, operators included. *)
Theorem writes_report_every_returned_row
    self query (update : update_doc) resp :
  let payload :=
    match dollar_set update with
    | Some fields => fields
    | None => other_items update
    end in
  (execute (Request (table_name self) (Update payload)
              (map_to_list query) None) = Returned resp ->
   update_one execute self query update =
     (Returned {| modified_count := length (default [] (data resp)) |}, []))
  /\
  (execute (Request (table_name self) Delete (map_to_list query) None)
     = Returned resp ->
   delete_one execute self query =
     (Returned {| deleted_count := length (default [] (data resp)) |}, [])).
Proof.
  intros payload. subst payload. unfold update_one, delete_one.
  rewrite !eq_all_request. simpl. split.
  - destruct (dollar_set update); simpl; intros ->; reflexivity.
  - intros ->. reflexivity.
Qed.

(** X16: [insert_one] sends a row with the keys of the document, in which
    a datetime directly under a key is replaced by its ISO text and every
    other value is the document's; the returned [inserted_id] is read from
    that row, so it is the id as sent, or the new UUID when the document
    has no ['id'] key. *)
Theorem insert_one_sends_iso_datetimes
    self (document : doc) (uuid4 : string) :
  exists row : doc,
    dom row = dom document /\
    (forall k t, document !! k = Some (VDatetime t) ->
                 row !! k = Some (VStr (isoformat t))) /\
    (forall k v, document !! k = Some v ->
                 (forall t, v <> VDatetime t) -> row !! k = Some v) /\
    (forall k v, row !! k = Some v -> forall t, v <> VDatetime t) /\
    insert_one execute isoformat self document uuid4 =
      match execute (Request (table_name self) (Insert row) [] None) with
      | Returned _ =>
          (Returned {| inserted_id := default (VStr uuid4) (row !! "id") |},
           [])
      | Raised e =>
          (Raised e,
           [("Supabase insert_one error on " ++ table_name self ++ ": "
             ++ exn_str e)%string])
      end.
Proof.
  exists ((fun v => match v with
                     | VDatetime t => VStr (isoformat t)
                     | _ => v
                     end) <$> document).
  split; [apply dom_fmap_L|]. split; [|split; [|split]].
  - intros k t Hk. by rewrite lookup_fmap, Hk.
  - intros k v Hk Hv. rewrite lookup_fmap, Hk. simpl.
    destruct v; try reflexivity. by destruct (Hv us).
  - intros k v. rewrite lookup_fmap.
    destruct (document !! k) as [x|]; simpl; [|discriminate].
    intros [= <-] t. destruct x; discriminate.
  - reflexivity.
Qed.

End SupabaseWrites.

Section SupabaseWriteExamples.

Import Supabase.

Lemma writes_report_every_returned_row_witness :
  update_one two_rows_client coaches_table by_id_c1 set_verified =
    (Returned {| modified_count := 2 |}, []).
Proof.
  apply (writes_report_every_returned_row two_rows_client coaches_table
           by_id_c1 set_verified
           {| data := Some [coach_a; coach_b]; count := Some 2%nat |}).
  reflexivity.
Defined.

End SupabaseWriteExamples.

(** ** Subscription tiers and features *)

Section Tiers.

Lemma py_eq_str_r v s : py_eq v (VStr s) = true <-> v = VStr s.
Proof.
  destruct v; simpl; split; try discriminate.
  - intros H. apply String.eqb_eq in H. by subst.
  - intros [= ->]. apply String.eqb_refl.
Qed.

Lemma elem_eq_str_r v s : elem_eq v (VStr s) = py_eq v (VStr s).
Proof. unfold elem_eq. by destruct v as [ | | | ? [] | | | | ]. Qed.

Lemma feature_tiers_cases feature tiers :
  feature_tiers !! feature = Some tiers ->
  tiers = ["premium"; "elite"] \/ tiers = ["elite"].
Proof.
  intros H. apply elem_of_list_to_map_2 in H.
  repeat match goal with
  | Hin : _ ∈ _ :: _ |- _ =>
      apply elem_of_cons in Hin; destruct Hin as [Hin|Hin];
      [injection Hin as -> ->; auto|]
  end.
  inversion H.
Qed.

Lemma no_access_outside_paid_tiers (tier : value) feature :
  tier <> VStr "basic" -> tier <> VStr "premium" -> tier <> VStr "elite" ->
  can_access_feature tier feature = false.
Proof.
  intros Hb Hp He.
  assert (Hno : forall s, tier <> VStr s -> elem_eq tier (VStr s) = false).
  { intros s Hs. rewrite elem_eq_str_r.
    destruct (py_eq tier (VStr s)) eqn:E; [|reflexivity].
    apply py_eq_str_r in E. contradiction. }
  unfold can_access_feature.
  destruct (feature_tiers !! feature) as [tiers|] eqn:E; simpl.
  - destruct (feature_tiers_cases _ _ E) as [-> | ->]; simpl;
      rewrite ?(Hno _ Hb), ?(Hno _ Hp), ?(Hno _ He); reflexivity.
  - by rewrite (Hno _ Hb), (Hno _ Hp), (Hno _ He).
Qed.

(** X17: access is cumulative over the paid tiers: elite can use every
    feature, named in the table or not, and whatever basic can use premium
    can use too. *)
Theorem tier_access_is_cumulative feature :
  can_access_feature (VStr "elite") feature = true /\
  (can_access_feature (VStr "basic") feature = true ->
   can_access_feature (VStr "premium") feature = true).
Proof.
  unfold can_access_feature.
  destruct (feature_tiers !! feature) as [tiers|] eqn:E; simpl.
  - destruct (feature_tiers_cases _ _ E) as [-> | ->]; simpl;
      split; [reflexivity | discriminate | reflexivity | discriminate].
  - split; reflexivity.
Qed.

(** X18: a tier that is none of "basic", "premium" and "elite" (the
    "free" tier, a missing tier, a value that is not a string) can use no
    feature at all, and basic can use none of the features named in the
    table. *)
Theorem other_tiers_have_no_access (tier : value) feature :
  tier <> VStr "basic" -> tier <> VStr "premium" -> tier <> VStr "elite" ->
  can_access_feature tier feature = false /\
  (is_Some (feature_tiers !! feature) ->
   can_access_feature (VStr "basic") feature = false).
Proof.
  intros Hb Hp He. split; [by apply no_access_outside_paid_tiers|].
  intros [tiers E]. unfold can_access_feature. rewrite E. simpl.
  destruct (feature_tiers_cases _ _ E) as [-> | ->]; reflexivity.
Qed.

Lemma other_tiers_have_no_access_witness :
  can_access_feature (VStr "free") "export" = false.
Proof.
  assert (H1 : VStr "free" <> VStr "basic") by discriminate.
  assert (H2 : VStr "free" <> VStr "premium") by discriminate.
  assert (H3 : VStr "free" <> VStr "elite") by discriminate.
  exact (proj1 (other_tiers_have_no_access (VStr "free") "export" H1 H2 H3)).
Defined.

End Tiers.

Section CoachTier.

Variable fromisoformat : string -> parsed_datetime.

(** X19: [get_coach_tier] returns the stored tier ("free" when none is
    stored) or "free", nothing else; and it lets the subscription run when
    it cannot read the expiry: when no expiry is stored or it is falsy,
    when it is not a string, when its text does not parse, and when it
    parses to a datetime without time zone. *)
Theorem coach_tier_survives_unreadable_expiry (now : Z) (coach : doc) :
  let tier := get_default coach "subscription_tier" (VStr "free") in
  let result := get_coach_tier fromisoformat now coach in
  (result = tier \/ result = VStr "free") /\
  (py_truthy (get coach "subscription_expires") = false -> result = tier) /\
  ((forall s, get coach "subscription_expires" <> VStr s) -> result = tier) /\
  (forall s, get coach "subscription_expires" = VStr s ->
     fromisoformat (replace_Z s) = ParseError \/
     fromisoformat (replace_Z s) = NaiveTime ->
     result = tier).
Proof.
  intros tier result. subst result tier. unfold get_coach_tier.
  destruct (py_truthy (get coach "subscription_expires")) eqn:Et;
    [|repeat split; auto].
  destruct (get coach "subscription_expires") as
    [ | b | z | f | s | us | xs | kvs ] eqn:Ee;
    try (split; [auto | split; [auto | split; [auto | discriminate]]]).
  split; [|split; [discriminate|split]].
  - destruct (fromisoformat (replace_Z s)) as [ | | t]; auto.
    destruct (now >? t)%Z; auto.
  - intros H. by destruct (H s).
  - intros s' [= <-] [-> | ->]; reflexivity.
Qed.

(** X20: an expiry that is read as an instant takes effect at that
    instant and for good: up to it the stored tier is returned, after it
    "free", at every later time too, and then no feature can be used. *)
Theorem lapsed_subscription_stays_free (now now' : Z) (coach : doc) s t :
  get coach "subscription_expires" = VStr s ->
  s <> "" ->
  fromisoformat (replace_Z s) = AwareTime t ->
  ((now <= t)%Z ->
   get_coach_tier fromisoformat now coach
   = get_default coach "subscription_tier" (VStr "free")) /\
  ((t < now)%Z -> (now <= now')%Z ->
   get_coach_tier fromisoformat now' coach = VStr "free" /\
   forall feature,
     can_access_feature (get_coach_tier fromisoformat now' coach) feature
     = false).
Proof.
  intros He Hs Hp.
  assert (Ht : py_truthy (VStr s) = true).
  { simpl. destruct (String.eqb s "") eqn:E; [|reflexivity].
    apply String.eqb_eq in E. contradiction. }
  unfold get_coach_tier. rewrite He, Ht, Hp. split.
  - intros Hle. destruct (now >? t)%Z eqn:E; [lia | reflexivity].
  - intros Hlt Hle. destruct (now' >? t)%Z eqn:E; [|lia].
    split; [reflexivity|]. intros feature.
    apply no_access_outside_paid_tiers; discriminate.
Qed.

End CoachTier.

Lemma lapsed_subscription_stays_free_witness :
  get_coach_tier sample_fromisoformat 50 lapsed_coach = VStr "premium" /\
  get_coach_tier sample_fromisoformat 200 lapsed_coach = VStr "free".
Proof.
  assert (He : get lapsed_coach "subscription_expires"
               = VStr "1970-01-01T00:00:00.000100Z") by reflexivity.
  assert (Hs : "1970-01-01T00:00:00.000100Z" <> "") by discriminate.
  assert (Hp : sample_fromisoformat
                 (replace_Z "1970-01-01T00:00:00.000100Z") = AwareTime 100)
    by reflexivity.
  split.
  - apply (proj1 (lapsed_subscription_stays_free sample_fromisoformat
                    50 50 lapsed_coach _ 100 He Hs Hp)). lia.
  - apply (proj2 (lapsed_subscription_stays_free sample_fromisoformat
                    150 200 lapsed_coach _ 100 He Hs Hp)); lia.
Defined.

(** ** Passwords *)

Section PasswordCheck.

Variable pwd_verify : string -> string -> outcome bool.

(** X21: a stored hash of the form ["PLAIN:" + q] is a clear-text
    password: [verify_password] accepts exactly the password [q],
    without asking passlib; an empty stored hash accepts nothing; and any
    other stored hash is judged by passlib, an exception of which counts
    as a refusal. *)
Theorem plain_prefix_compares_clear_text (plain_password q : string) :
  verify_password pwd_verify plain_password ("PLAIN:" ++ q)
  = String.eqb plain_password q /\
  (verify_password pwd_verify plain_password ("PLAIN:" ++ q) = true <->
   plain_password = q) /\
  verify_password pwd_verify plain_password "" = false /\
  (forall hashed_password,
     hashed_password <> "" ->
     String.prefix "PLAIN:" hashed_password = false ->
     verify_password pwd_verify plain_password hashed_password =
       match pwd_verify plain_password hashed_password with
       | Returned result => result
       | Raised _ => false
       end).
Proof.
  assert (Hplain : verify_password pwd_verify plain_password ("PLAIN:" ++ q)
                   = String.eqb plain_password q).
  { unfold verify_password. cbv [String.append]. simpl.
    by destruct q. }
  split; [exact Hplain|]. split; [|split].
  - rewrite Hplain. apply String.eqb_eq.
  - reflexivity.
  - intros h Hne Hpre. unfold verify_password. rewrite Hpre.
    destruct (String.eqb h "") eqn:E; [|reflexivity].
    apply String.eqb_eq in E. contradiction.
Qed.

End PasswordCheck.

(** ** Route handlers on the in-memory store *)

Section HandlerFacts.

Import Demo.

Implicit Types (db : DemoDB) (w : world) (self : DemoCollection).

Lemma getitem_effect db nm w :
  registry_ok db w ->
  name (__getitem__ db nm w).1.1 = nm /\
  heap (__getitem__ db nm w).2 = heap w /\
  (forall self, items_of self (__getitem__ db nm w).2 = items_of self w) /\
  is_Some (_demo_storage (__getitem__ db nm w).2 !! nm) /\
  registry_ok (__getitem__ db nm w).1.2 (__getitem__ db nm w).2.
Proof.
  intros Hok. unfold __getitem__.
  destruct (_collections db !! nm) as [c|] eqn:E; simpl.
  - destruct (Hok nm c E) as [Hname Hs].
    split; [exact Hname|]. split; [reflexivity|]. split; [reflexivity|].
    split; [exact Hs | exact Hok].
  - split; [reflexivity|]. unfold __init__, items_of.
    destruct (_demo_storage w !! nm) as [items|] eqn:E'; simpl.
    + split; [reflexivity|]. split; [reflexivity|].
      split; [rewrite E'; eauto|].
      intros n c. unfold registry_ok in *. simpl. rewrite lookup_insert.
      destruct (decide (nm = n)) as [<-|Hne].
      * intros [= <-]. simpl. rewrite E'. eauto.
      * intros Hc. apply (Hok n c Hc).
    + split; [reflexivity|]. split; [|split].
      * intros self. rewrite lookup_insert.
        destruct (decide (nm = name self)) as [->|];
          [by rewrite E' | reflexivity].
      * rewrite lookup_insert_eq. eauto.
      * intros n c. unfold registry_ok in *. simpl. rewrite lookup_insert.
        destruct (decide (nm = n)) as [<-|Hne].
        -- intros [= <-]. simpl. rewrite lookup_insert_eq. eauto.
        -- intros Hc. destruct (Hok n c Hc) as [Hname Hs].
           split; [exact Hname|].
           rewrite lookup_insert_ne by exact Hne. exact Hs.
Qed.

Lemma first_match_same_heap w w' query items :
  heap w' = heap w ->
  first_match w' query items = first_match w query items.
Proof.
  intros Hh. induction items as [|x xs IH]; simpl; [reflexivity|].
  unfold deref. rewrite Hh, IH. reflexivity.
Qed.

Lemma items_of_name self w :
  items_of self w = default [] (_demo_storage w !! name self).
Proof. reflexivity. Qed.

Lemma matches_str_nonempty (d : doc) k s :
  matches d {[ k := VStr s ]} = true -> size d <> 0%nat.
Proof.
  rewrite matches_singleton. intros Hm Hsize.
  apply map_size_empty_inv in Hsize. subst d.
  unfold get in Hm. rewrite lookup_empty in Hm. discriminate.
Qed.

(** Building a dict does not disturb a stored list whose objects exist. *)
Lemma first_match_new_dict w (d : doc) query items :
  (forall item, item ∈ items -> is_Some (heap w !! item)) ->
  first_match (new_dict d w).2 query items = first_match w query items.
Proof.
  intros Halloc. induction items as [|x xs IH]; simpl; [reflexivity|].
  assert (Hx : deref (set_heap (<[fresh (dom (heap w)) := d]> (heap w)) w) x
               = deref w x).
  { unfold deref. simpl. rewrite lookup_insert_ne; [reflexivity|].
    intros Heq. destruct (Halloc x (list_elem_of_here _ _)) as [y Hy].
    pose proof (is_fresh (dom (heap w))) as Hnew.
    apply Hnew. rewrite Heq. apply elem_of_dom. eauto. }
  rewrite Hx. simpl in IH. rewrite IH; [reflexivity|].
  intros item Hin. apply Halloc. by right.
Qed.

End HandlerFacts.

Section RegisterHandler.

Import Demo.

Implicit Types (db : DemoDB) (w : world).

Lemma getitem_storage_present db nm w :
  is_Some (_demo_storage w !! nm) ->
  _demo_storage (__getitem__ db nm w).2 = _demo_storage w.
Proof.
  intros [items Hs]. unfold __getitem__.
  destruct (_collections db !! nm); [reflexivity|].
  simpl. unfold __init__. rewrite Hs. reflexivity.
Qed.

Lemma elem_of_default_is_Some (m : gmap string (list loc)) nm (x : loc) :
  x ∈ default [] (m !! nm) -> is_Some (m !! nm).
Proof. destruct (m !! nm); [eauto | intros H; inversion H]. Qed.

(** What [register] does, by whether a stored staff user already has the
    e-mail address. *)
Lemma register_cases
    (request : Handlers.RegisterRequest) uuid4 hashed created_at spare db w :
  registry_ok db w ->
  let query : doc := {[ "email" := VStr (Handlers.email request) ]} in
  let staff := default [] (_demo_storage w !! "staff_users") in
  let g := __getitem__ db "staff_users" w in
  let r :=
    Handlers.register request uuid4 hashed created_at spare (db, w) in
  match first_match w query staff with
  | Some t =>
      r = (Handlers.HTTPException 400 "Email already registered",
           (g.1.2, (new_dict (deref w t) g.2).2))
  | None =>
      let user := fresh (dom (heap w)) in
      let u : doc :=
        {[ "id" := VStr uuid4;
           "email" := VStr (Handlers.email request);
           "password_hash" := VStr hashed;
           "name" := VStr (Handlers.name request);
           "role" := VStr (Handlers.role request);
           "is_active" := VBool true;
           "created_at" := VStr created_at ]} in
      r = (Handlers.Replied
             {[ "id" := VStr uuid4;
                "email" := VStr (Handlers.email request);
                "name" := VStr (Handlers.name request);
                "role" := VStr (Handlers.role request);
                "is_active" := VBool true ]},
           (g.1.2,
            set_storage
              (<["staff_users" := (staff ++ [user])%list]>
                 (_demo_storage g.2))
              (set_heap (<[user := u]> (heap g.2)) g.2)))
  end.
Proof.
  intros Hok query staff g r.
  destruct (getitem_effect db "staff_users" w Hok)
    as (Hname & Hheap & Hitems & Hkey & Hok1).
  fold g in Hname, Hheap, Hitems, Hkey, Hok1.
  assert (Hstaff : items_of g.1.1 g.2 = staff).
  { rewrite Hitems, items_of_name, Hname. reflexivity. }
  assert (Hfm : first_match g.2 query (items_of g.1.1 g.2)
                = first_match w query staff).
  { rewrite Hstaff. by apply first_match_same_heap. }
  subst r. unfold Handlers.register, Handlers.mongo_db_attr. simpl.
  fold g. unfold find_one. fold query. rewrite Hfm.
  destruct (first_match w query staff) as [t|] eqn:E.
  - assert (Hd : deref g.2 t = deref w t)
      by (unfold deref; by rewrite Hheap).
    rewrite Hd. simpl.
    destruct (first_match_Some _ _ _ _ E) as [_ Hm].
    assert (Hsize : size (deref w t) <> 0%nat)
      by (eapply matches_str_nonempty; exact Hm).
    unfold deref at 1. simpl. rewrite lookup_insert_eq. simpl.
    destruct (Nat.eqb_spec (size (deref w t)) 0); [contradiction|].
    reflexivity.
  - simpl.
    rewrite (demo_getitem_cached g.1.2 "staff_users" _ g.1.1)
      by apply demo_getitem_caches.
    simpl. unfold insert_one. rewrite Hname. simpl.
    destruct Hkey as [items Hitems'].
    assert (Hitems_eq : items = staff).
    { rewrite <- Hstaff, items_of_name, Hname, Hitems'. reflexivity. }
    rewrite Hitems'. subst items. rewrite Hheap.
    unfold deref. simpl. rewrite lookup_insert_eq. simpl.
    reflexivity.
Qed.

End RegisterHandler.

Section RegisterUniqueness.

Import Demo.

Implicit Types (db : DemoDB) (w : world).

(** X22: [register] keeps the e-mail addresses of the staff users
    distinct, which [create_index(..., unique=True)] does not do on this
    store.  If a stored staff user has the address, the handler answers 400
    and changes no stored list and no existing dict.  If none has it, one
    new user document with the fields of the request is appended to
    [staff_users], the reply holds its id, and from then on the address is
    taken. *)
Theorem register_keeps_emails_distinct
    (request : Handlers.RegisterRequest) uuid4 hashed created_at spare db w :
  registry_ok db w ->
  let staff w := default [] (_demo_storage w !! "staff_users") in
  let taken w :=
    exists item,
      item ∈ staff w /\
      py_eq (get (deref w item) "email") (VStr (Handlers.email request))
      = true in
  let r :=
    Handlers.register request uuid4 hashed created_at spare (db, w) in
  (taken w ->
   r.1 = Handlers.HTTPException 400 "Email already registered" /\
   _demo_storage r.2.2 = _demo_storage w /\
   forall l, is_Some (heap w !! l) -> heap r.2.2 !! l = heap w !! l) /\
  (~ taken w ->
   exists user,
     heap w !! user = None /\
     deref r.2.2 user =
       {[ "id" := VStr uuid4;
          "email" := VStr (Handlers.email request);
          "password_hash" := VStr hashed;
          "name" := VStr (Handlers.name request);
          "role" := VStr (Handlers.role request);
          "is_active" := VBool true;
          "created_at" := VStr created_at ]} /\
     staff r.2.2 = (staff w ++ [user])%list /\
     r.1 = Handlers.Replied
             {[ "id" := VStr uuid4;
                "email" := VStr (Handlers.email request);
                "name" := VStr (Handlers.name request);
                "role" := VStr (Handlers.role request);
                "is_active" := VBool true ]} /\
     registry_ok r.2.1 r.2.2 /\
     taken r.2.2).
Proof.
  intros Hok staff taken r.
  pose proof (register_cases request uuid4 hashed created_at spare db w Hok)
    as Hr. simpl in Hr. fold r in Hr. fold (staff w) in Hr.
  destruct (getitem_effect db "staff_users" w Hok)
    as (Hname & Hheap & Hitems & Hkey & Hok1).
  split.
  - intros (item & Hin & Hmatch).
    destruct (first_match_is_Some w
                {[ "email" := VStr (Handlers.email request) ]}
                (staff w) item Hin) as [t Ht];
      [by rewrite matches_singleton|].
    rewrite Ht in Hr. rewrite Hr. simpl.
    split; [reflexivity|]. split.
    + apply getitem_storage_present.
      by apply (elem_of_default_is_Some _ _ item).
    + intros l [d Hl]. rewrite Hheap. apply lookup_insert_ne.
      intros <-. pose proof (is_fresh (dom (heap w))) as Hnew.
      apply Hnew. rewrite <- Hheap. apply elem_of_dom.
      rewrite Hheap. eauto.
  - intros Hfree.
    assert (Hnone : first_match w
                      {[ "email" := VStr (Handlers.email request) ]}
                      (staff w) = None).
    { apply first_match_None. intros item Hin.
      rewrite matches_singleton.
      destruct (py_eq (get (deref w item) "email")
                  (VStr (Handlers.email request))) eqn:E; [|reflexivity].
      exfalso. apply Hfree. exists item. auto. }
    rewrite Hnone in Hr. rewrite Hr. simpl.
    exists (fresh (dom (heap w))).
    pose proof (is_fresh (dom (heap w))) as Hnew.
    split; [by apply not_elem_of_dom|].
    split; [unfold deref; simpl; by rewrite lookup_insert_eq|].
    split; [unfold staff at 1; simpl; by rewrite lookup_insert_eq|].
    split; [reflexivity|]. split.
    + apply (registry_ok_storage _ _ _ Hok1). intros n Hn. simpl.
      apply lookup_insert_is_Some'. by right.
    + exists (fresh (dom (heap w))). split.
      * unfold staff. simpl. rewrite lookup_insert_eq. simpl.
        apply elem_of_app. right. left.
      * unfold deref. simpl. rewrite lookup_insert_eq. simpl.
        apply String.eqb_refl.
Qed.

End RegisterUniqueness.

Lemma register_keeps_emails_distinct_witness :
  registry_ok Demo.new_db Demo.initial_world /\
  (Handlers.register sample_request "u1" "h" "t" "u2"
     (Demo.new_db, Demo.initial_world)).1
  = Handlers.Replied
      {[ "id" := VStr "u1"; "email" := VStr "ana@example.com";
         "name" := VStr "Ana"; "role" := VStr "viewer";
         "is_active" := VBool true ]}.
Proof.
  assert (Hok : registry_ok Demo.new_db Demo.initial_world).
  { intros n c Hc. simpl in Hc. by rewrite lookup_empty in Hc. }
  split; [exact Hok|].
  destruct (proj2 (register_keeps_emails_distinct sample_request
                     "u1" "h" "t" "u2" _ _ Hok))
    as (user & _ & _ & _ & Hr & _).
  { intros (item & Hin & _). vm_compute in Hin. inversion Hin. }
  exact Hr.
Defined.

Section VerifyPlayer.

Import Demo.

Implicit Types (db : DemoDB) (w : world).

(** What [verify_player] does, by whether a stored player has the id. *)
Lemma verify_player_cases player_id db w :
  registry_ok db w ->
  let players := default [] (_demo_storage w !! "players") in
  (forall item, item ∈ players -> is_Some (heap w !! item)) ->
  let query : doc := {[ "id" := VStr player_id ]} in
  let g := __getitem__ db "players" w in
  let r := Handlers.verify_player player_id (db, w) in
  match first_match w query players with
  | Some t =>
      let flag :=
        negb (py_truthy (get_default (deref w t) "verified" (VBool false))) in
      let w2 := (new_dict (deref w t) g.2).2 in
      first_match w2 query (default [] (_demo_storage w2 !! "players"))
        = Some t /\
      deref w2 t = deref w t /\
      r = (Handlers.Replied {[ "verified" := VBool flag ]},
           (g.1.2,
            set_heap
              (<[t := {[ "verified" := VBool flag ]} ∪ deref w2 t]> (heap w2))
              w2))
  | None =>
      r = (Handlers.HTTPException 404 "Player not found", (g.1.2, g.2))
  end.
Proof.
  intros Hok players Halloc query g r.
  destruct (getitem_effect db "players" w Hok)
    as (Hname & Hheap & Hitems & Hkey & Hok1).
  fold g in Hname, Hheap, Hitems, Hkey, Hok1.
  assert (Hplayers : items_of g.1.1 g.2 = players).
  { rewrite Hitems, items_of_name, Hname. reflexivity. }
  assert (Hfm : first_match g.2 query (items_of g.1.1 g.2)
                = first_match w query players).
  { rewrite Hplayers. by apply first_match_same_heap. }
  subst r. unfold Handlers.verify_player, Handlers.mongo_db_attr. simpl.
  fold g. unfold find_one. fold query. rewrite Hfm.
  destruct (first_match w query players) as [t|] eqn:E; [|reflexivity].
  assert (Hd : deref g.2 t = deref w t)
    by (unfold deref; by rewrite Hheap).
  rewrite Hd. simpl.
  destruct (first_match_Some _ _ _ _ E) as [Hin Hm].
  assert (Hsize : size (deref w t) <> 0%nat)
    by (eapply matches_str_nonempty; exact Hm).
  set (w2 := set_heap (<[fresh (dom (heap g.2)) := deref w t]> (heap g.2))
               g.2).
  assert (Hcopy : deref w2 (fresh (dom (heap g.2))) = deref w t).
  { unfold deref, w2. simpl. by rewrite lookup_insert_eq. }
  assert (Halloc2 : forall item, item ∈ players ->
                                 is_Some (heap g.2 !! item)).
  { intros item Hi. rewrite Hheap. by apply Halloc. }
  assert (Hfm2 : first_match w2 query players = Some t).
  { pose proof (first_match_new_dict g.2 (deref w t) query players Halloc2)
      as Hn. simpl in Hn. fold w2 in Hn. rewrite Hn.
    rewrite (first_match_same_heap w g.2) by exact Hheap. exact E. }
  assert (Hplayers2 : default [] (_demo_storage w2 !! "players") = players).
  { rewrite <- Hplayers, items_of_name, Hname. reflexivity. }
  assert (Ht2 : deref w2 t = deref w t).
  { unfold deref, w2. simpl. rewrite lookup_insert_ne.
    - by rewrite Hheap.
    - intros Heq. destruct (Halloc2 t Hin) as [y Hy].
      pose proof (is_fresh (dom (heap g.2))) as Hnew.
      apply Hnew. rewrite Heq. apply elem_of_dom. eauto. }
  assert (Hplayers3 : default [] (_demo_storage g.2 !! "players") = players)
    by exact Hplayers2.
  split; [rewrite Hplayers3; exact Hfm2|]. split; [exact Ht2|].
  rewrite Hcopy.
  destruct (Nat.eqb_spec (size (deref w t)) 0); [contradiction|]. simpl.
  rewrite (demo_getitem_cached g.1.2 "players" _ g.1.1)
    by apply demo_getitem_caches.
  simpl. unfold update_one.
  assert (Hitems2 : items_of g.1.1 w2 = players) by exact Hplayers.
  rewrite Hitems2, Hfm2. simpl. reflexivity.
Qed.

End VerifyPlayer.

Section VerifyPlayerToggle.

Import Demo.

Implicit Types (db : DemoDB) (w : world).

(** X23: [verify_player] flips the [verified] flag of the first stored
    player with the given id: the reply and the stored flag are the negation
    of the truth value the flag had ([False] when it was missing), no other
    field, no other existing dict and no list changes, and a second call
    flips the flag back.  Without such a player the handler answers 404 and
    no document changes. *)
Theorem verify_player_flips_flag player_id db w :
  registry_ok db w ->
  let players w := default [] (_demo_storage w !! "players") in
  (forall item, item ∈ players w -> is_Some (heap w !! item)) ->
  let r := Handlers.verify_player player_id (db, w) in
  match first_match w {[ "id" := VStr player_id ]} (players w) with
  | Some t =>
      let flag :=
        negb (py_truthy (get_default (deref w t) "verified" (VBool false))) in
      r.1 = Handlers.Replied {[ "verified" := VBool flag ]} /\
      deref r.2.2 t = <["verified" := VBool flag]> (deref w t) /\
      players r.2.2 = players w /\
      (forall l, is_Some (heap w !! l) -> l <> t ->
                 heap r.2.2 !! l = heap w !! l) /\
      (Handlers.verify_player player_id r.2).1
      = Handlers.Replied {[ "verified" := VBool (negb flag) ]}
  | None =>
      r.1 = Handlers.HTTPException 404 "Player not found" /\
      heap r.2.2 = heap w /\
      forall self, items_of self r.2.2 = items_of self w
  end.
Proof.
  intros Hok players Halloc r.
  pose proof (verify_player_cases player_id db w Hok Halloc) as Hr.
  cbv zeta in Hr. fold r in Hr. fold (players w) in Hr.
  destruct (getitem_effect db "players" w Hok)
    as (Hname & Hheap & Hitems & Hkey & Hok1).
  destruct (first_match w {[ "id" := VStr player_id ]} (players w))
    as [t|] eqn:E.
  2:{ rewrite Hr. simpl. auto. }
  destruct Hr as (Hfm2 & Ht2 & Hr).
  set (g := __getitem__ db "players" w) in *.
  set (w2 := (new_dict (deref w t) g.2).2) in *.
  set (flag := negb (py_truthy
                       (get_default (deref w t) "verified" (VBool false))))
    in *.
  set (w4 := set_heap
               (<[t := {[ "verified" := VBool flag ]} ∪ deref w2 t]>
                  (heap w2)) w2) in *.
  assert (Hd4 : deref w4 t = <["verified" := VBool flag]> (deref w t)).
  { unfold w4. rewrite deref_set_heap_eq, Ht2.
    by rewrite insert_union_singleton_l. }
  destruct (first_match_Some _ _ _ _ E) as [Hin _].
  assert (Hp4 : players w4 = players w).
  { unfold players, w4, w2. simpl.
    change (default [] (_demo_storage g.2 !! "players"))
      with (items_of {| oid := 0%nat; name := "players" |} g.2).
    by rewrite Hitems. }
  rewrite Hr. simpl. split; [reflexivity|]. split; [exact Hd4|].
  split; [exact Hp4|]. split.
  { intros l [d Hl] Hne. unfold w4, w2. simpl.
    rewrite lookup_insert_ne by congruence.
    rewrite lookup_insert_ne; [by rewrite Hheap|].
    intros <-. pose proof (is_fresh (dom (heap g.2))) as Hnew.
    apply Hnew, elem_of_dom. rewrite Hheap in *. eauto. }
  assert (Hok4 : registry_ok g.1.2 w4).
  { apply (registry_ok_storage _ _ _ Hok1). intros n Hn. exact Hn. }
  assert (Halloc4 : forall item, item ∈ players w4 ->
                                 is_Some (heap w4 !! item)).
  { intros item Hi. rewrite Hp4 in Hi. unfold w4, w2. simpl.
    apply lookup_insert_is_Some'. right.
    apply lookup_insert_is_Some'. right.
    rewrite Hheap. by apply Halloc. }
  pose proof (verify_player_cases player_id g.1.2 w4 Hok4 Halloc4) as Hr4.
  cbv zeta in Hr4.
  assert (Hfm4 : first_match w4 {[ "id" := VStr player_id ]}
                   (default [] (_demo_storage w2 !! "players")) = Some t).
  { apply (first_match_after_set w2 _ {[ "verified" := VBool flag ]} _ t
             Hfm2).
    intros k [v Hk]. apply lookup_singleton_Some in Hk as [<- _].
    reflexivity. }
  change (_demo_storage w4) with (_demo_storage w2) in Hr4.
  rewrite Hfm4 in Hr4. destruct Hr4 as (_ & _ & Hr4).
  rewrite Hr4. simpl. unfold get_default. rewrite Hd4.
  rewrite lookup_insert_eq. simpl. reflexivity.
Qed.

End VerifyPlayerToggle.

Lemma verify_player_flips_flag_witness :
  (Handlers.verify_player "p1" (Demo.new_db, one_player_world)).1
  = Handlers.Replied {[ "verified" := VBool true ]}.
Proof.
  assert (Hok : registry_ok Demo.new_db one_player_world).
  { intros n c Hc. simpl in Hc. by rewrite lookup_empty in Hc. }
  assert (Halloc : forall item,
            item ∈ default [] (Demo._demo_storage one_player_world
                                 !! "players") ->
            is_Some (Demo.heap one_player_world !! item)).
  { intros item Hin. vm_compute in Hin.
    inversion Hin as [|? ? ? Hin']; subst; [by eexists | inversion Hin']. }
  pose proof (verify_player_flips_flag "p1" Demo.new_db one_player_world
                Hok Halloc) as H.
  cbv zeta in H.
  change (Demo.first_match one_player_world {[ "id" := VStr "p1" ]}
            (default [] (Demo._demo_storage one_player_world !! "players")))
    with (Some 0%nat) in H.
  destruct H as [H _]. exact H.
Defined.

Section SetupAdmin.

Import Demo.

Implicit Types (db : DemoDB) (w : world).

(** What [setup_admin] does, by whether [staff_users] is empty. *)
Lemma setup_admin_cases uuid4 hashed created_at spare db w :
  registry_ok db w ->
  let staff := default [] (_demo_storage w !! "staff_users") in
  let g := __getitem__ db "staff_users" w in
  let r := Handlers.setup_admin uuid4 hashed created_at spare (db, w) in
  match staff with
  | _ :: _ =>
      r = (Handlers.Replied
             {[ "message" := VStr "Setup already complete";
                "existing_users" := VInt (Z.of_nat (length staff));
                "note" :=
                  VStr
                    "Admin user already exists. Use /auth/login to authenticate."
             ]},
           (g.1.2, g.2))
  | [] =>
      let admin := fresh (dom (heap w)) in
      let u : doc :=
        {[ "id" := VStr uuid4;
           "email" := VStr "admin@hoopwithher.com";
           "password_hash" := VStr hashed;
           "name" := VStr "System Administrator";
           "role" := VStr "admin";
           "is_active" := VBool true;
           "is_verified" := VBool true;
           "created_at" := VStr created_at ]} in
      r = (Handlers.Replied
             {[ "message" := VStr "Initial admin user created successfully";
                "admin_email" := VStr "admin@hoopwithher.com";
                "admin_password" := VStr "AdminPass123!";
                "warning" :=
                  VStr "Change this password immediately after first login!"
             ]},
           (g.1.2,
            set_storage
              (<["staff_users" := [admin]]> (_demo_storage g.2))
              (set_heap (<[admin := u]> (heap g.2)) g.2)))
  end.
Proof.
  intros Hok staff g r.
  destruct (getitem_effect db "staff_users" w Hok)
    as (Hname & Hheap & Hitems & Hkey & Hok1).
  fold g in Hname, Hheap, Hitems, Hkey, Hok1.
  assert (Hstaff : items_of g.1.1 g.2 = staff).
  { rewrite Hitems, items_of_name, Hname. reflexivity. }
  subst r. unfold Handlers.setup_admin, Handlers.mongo_db_attr. simpl.
  fold g. unfold count_documents. simpl. rewrite Hstaff.
  destruct staff as [|x xs] eqn:E; simpl; [|reflexivity].
  rewrite (demo_getitem_cached g.1.2 "staff_users" _ g.1.1)
    by apply demo_getitem_caches.
  simpl. unfold insert_one. rewrite Hname. simpl.
  destruct Hkey as [items Hitems'].
  assert (Hitems_eq : items = []).
  { rewrite <- Hstaff, items_of_name, Hname, Hitems'. reflexivity. }
  rewrite Hitems'. subst items. rewrite Hheap. reflexivity.
Qed.

(** X24: [setup_admin] creates the default administrator only in an empty
    [staff_users] collection.  If the collection holds a document, whatever
    it is, the handler reports the number of documents and changes no stored
    list and no dict; if it is empty, exactly one user with the role
    "admin" is stored, and a second call finds the setup complete with one
    existing user and stores nothing. *)
Theorem setup_admin_runs_once
    uuid4 hashed created_at spare uuid4' hashed' created_at' spare' db w :
  registry_ok db w ->
  let staff w := default [] (_demo_storage w !! "staff_users") in
  let r := Handlers.setup_admin uuid4 hashed created_at spare (db, w) in
  let r' := Handlers.setup_admin uuid4' hashed' created_at' spare' r.2 in
  (staff w <> [] ->
   r.1 = Handlers.Replied
           {[ "message" := VStr "Setup already complete";
              "existing_users" := VInt (Z.of_nat (length (staff w)));
              "note" :=
                VStr
                  "Admin user already exists. Use /auth/login to authenticate."
           ]} /\
   heap r.2.2 = heap w /\
   forall self, items_of self r.2.2 = items_of self w) /\
  (staff w = [] ->
   exists admin,
     heap w !! admin = None /\
     staff r.2.2 = [admin] /\
     deref r.2.2 admin !! "role" = Some (VStr "admin") /\
     deref r.2.2 admin !! "email" = Some (VStr "admin@hoopwithher.com") /\
     deref r.2.2 admin !! "password_hash" = Some (VStr hashed) /\
     r'.1 = Handlers.Replied
              {[ "message" := VStr "Setup already complete";
                 "existing_users" := VInt 1;
                 "note" :=
                   VStr
                     "Admin user already exists. Use /auth/login to authenticate."
              ]} /\
     staff r'.2.2 = [admin]).
Proof.
  intros Hok staff r r'.
  pose proof (setup_admin_cases uuid4 hashed created_at spare db w Hok)
    as Hr. cbv zeta in Hr. fold r in Hr. fold (staff w) in Hr.
  destruct (getitem_effect db "staff_users" w Hok)
    as (Hname & Hheap & Hitems & Hkey & Hok1).
  split.
  - intros Hne. destruct (staff w) as [|x xs] eqn:E; [contradiction|].
    rewrite Hr. simpl. split; [reflexivity|]. split; [exact Hheap|].
    exact Hitems.
  - intros Hempty. rewrite Hempty in Hr.
    set (g := __getitem__ db "staff_users" w) in *.
    set (admin := fresh (dom (heap w))) in *.
    assert (Hok2 : registry_ok r.2.1 r.2.2).
    { rewrite Hr. simpl. apply (registry_ok_storage _ _ _ Hok1).
      intros n Hn. simpl. apply lookup_insert_is_Some'. by right. }
    assert (Hstaff2 : staff r.2.2 = [admin]).
    { rewrite Hr. unfold staff. simpl. by rewrite lookup_insert_eq. }
    pose proof (setup_admin_cases uuid4' hashed' created_at' spare'
                  r.2.1 r.2.2 Hok2) as Hr'.
    cbv zeta in Hr'. fold (staff r.2.2) in Hr'. rewrite Hstaff2 in Hr'.
    assert (Hr2 : r' = Handlers.setup_admin uuid4' hashed' created_at'
                         spare' (r.2.1, r.2.2)) by (by destruct r.2).
    rewrite <- Hr2 in Hr'.
    exists admin. pose proof (is_fresh (dom (heap w))) as Hnew.
    split; [by apply not_elem_of_dom|]. split; [exact Hstaff2|].
    assert (Hd : deref r.2.2 admin =
      {[ "id" := VStr uuid4;
         "email" := VStr "admin@hoopwithher.com";
         "password_hash" := VStr hashed;
         "name" := VStr "System Administrator";
         "role" := VStr "admin";
         "is_active" := VBool true;
         "is_verified" := VBool true;
         "created_at" := VStr created_at ]}).
    { rewrite Hr. unfold deref. simpl. by rewrite lookup_insert_eq. }
    rewrite Hd. split; [reflexivity|]. split; [reflexivity|].
    split; [by simplify_map_eq|].
    rewrite Hr'. simpl. split; [reflexivity|].
    destruct (getitem_effect r.2.1 "staff_users" r.2.2 Hok2)
      as (_ & _ & Hitems2 & _ & _).
    change (staff (__getitem__ r.2.1 "staff_users" r.2.2).2)
      with (items_of {| oid := 0%nat; name := "staff_users" |}
              (__getitem__ r.2.1 "staff_users" r.2.2).2).
    rewrite Hitems2. exact Hstaff2.
Qed.

End SetupAdmin.

Lemma setup_admin_runs_once_witness :
  exists admin,
    default []
      (Demo._demo_storage
         (Handlers.setup_admin "u1" "h" "t" "u2"
            (Demo.new_db, Demo.initial_world)).2.2 !! "staff_users")
    = [admin].
Proof.
  assert (Hok : registry_ok Demo.new_db Demo.initial_world).
  { intros n c Hc. simpl in Hc. by rewrite lookup_empty in Hc. }
  destruct (proj2 (setup_admin_runs_once "u1" "h" "t" "u2"
                     "u3" "h2" "t2" "u4" _ _ Hok))
    as (admin & _ & Hstaff & _); [reflexivity|].
  exists admin. exact Hstaff.
Defined.

Section DashboardFacts.

Import Demo.

Implicit Types (db : DemoDB) (w : world) (self : DemoCollection).

Lemma count_documents_same_docs self self' (q : option doc) w w' :
  name self' = name self ->
  heap w' = heap w ->
  (forall c, items_of c w' = items_of c w) ->
  count_documents self' q w' = count_documents self q w.
Proof.
  intros Hname Hheap Hitems. unfold count_documents.
  rewrite Hitems. unfold deref. rewrite Hheap.
  unfold items_of. rewrite Hname. reflexivity.
Qed.

Lemma count_documents_filter self (q : doc) w :
  truthy (Some q) = true ->
  count_documents self (Some q) w =
  length (List.filter (fun item => matches (deref w item) q)
            (items_of self w)).
Proof.
  intros Ht. unfold count_documents. rewrite Ht. simpl. apply count_ones.
Qed.

Lemma at_most_one_text v (keys : list string) :
  NoDup keys ->
  (list_sum
     (List.map (fun key => if py_eq v (VStr key) then 1%nat else 0%nat) keys)
   <= 1)%nat.
Proof.
  induction 1 as [|k ks Hnotin Hnodup IH]; simpl; [lia|].
  destruct (py_eq v (VStr k)) eqn:E; [|exact IH].
  apply py_eq_str_r in E. subst v.
  assert (Hzero :
    list_sum (List.map (fun key => if py_eq (VStr k) (VStr key)
                                   then 1%nat else 0%nat) ks) = 0%nat).
  { clear IH Hnodup. induction ks as [|k' ks IHks]; [reflexivity|].
    simpl. destruct (String.eqb_spec k k') as [->|Hne].
    - exfalso. apply Hnotin. left.
    - simpl. apply IHks. intros Hin. apply Hnotin. by right. }
  lia.
Qed.

Lemma list_sum_map_add {A : Type} (f g : A -> nat) (xs : list A) :
  list_sum (List.map (fun x => f x + g x) xs)%nat
  = (list_sum (List.map f xs) + list_sum (List.map g xs))%nat.
Proof. induction xs as [|x xs IH]; simpl; [reflexivity | lia]. Qed.

Lemma list_sum_map_const {A : Type} (n : nat) (xs : list A) :
  list_sum (List.map (fun _ => n) xs) = (length xs * n)%nat.
Proof. induction xs as [|x xs IH]; simpl; [reflexivity | lia]. Qed.

(** Documents are counted under at most one of several distinct texts. *)
Lemma counts_by_text_le w field (keys : list string) (items : list loc) :
  NoDup keys ->
  (list_sum
     (List.map
        (fun key =>
           length (List.filter
                     (fun item =>
                        matches (deref w item) {[ field := VStr key ]})
                     items))
        keys)
   <= length items)%nat.
Proof.
  intros Hnodup. induction items as [|x xs IH]; simpl.
  - rewrite list_sum_map_const. lia.
  - pose proof (at_most_one_text (get (deref w x) field) keys Hnodup)
      as Hone.
    assert (Hsplit :
      List.map
        (fun key =>
           length
             (if matches (deref w x) {[ field := VStr key ]}
              then x :: List.filter
                          (fun item =>
                             matches (deref w item) {[ field := VStr key ]})
                          xs
              else List.filter
                     (fun item =>
                        matches (deref w item) {[ field := VStr key ]}) xs))
        keys
      = List.map
          (fun key =>
             (if py_eq (get (deref w x) field) (VStr key) then 1%nat else 0%nat) +
             length (List.filter
                       (fun item =>
                          matches (deref w item) {[ field := VStr key ]})
                       xs))%nat
          keys).
    { apply List.map_ext. intros key. rewrite matches_singleton.
      by destruct (py_eq (get (deref w x) field) (VStr key)). }
    rewrite Hsplit, list_sum_map_add. lia.
Qed.

End DashboardFacts.

Section Dashboard.

Import Demo.

Implicit Types (db : DemoDB) (w : world) (self : DemoCollection).

Lemma mongo_db_attr_effect nm (s : Handlers.app) :
  registry_ok s.1 s.2 ->
  name (Handlers.mongo_db_attr nm s).1 = nm /\
  heap (Handlers.mongo_db_attr nm s).2.2 = heap s.2 /\
  (forall c, items_of c (Handlers.mongo_db_attr nm s).2.2 = items_of c s.2) /\
  registry_ok (Handlers.mongo_db_attr nm s).2.1
    (Handlers.mongo_db_attr nm s).2.2.
Proof.
  intros Hok. destruct (getitem_effect s.1 nm s.2 Hok)
    as (Hname & Hheap & Hitems & _ & Hok1).
  unfold Handlers.mongo_db_attr. simpl. auto.
Qed.

Lemma with_name_bound nm storage :
  is_Some (storage !! nm) -> with_name nm storage = storage.
Proof. unfold with_name. by intros [items ->]. Qed.

Lemma with_name_keeps nm n storage :
  is_Some (storage !! n) -> is_Some (with_name nm storage !! n).
Proof.
  unfold with_name. intros Hn.
  destruct (storage !! nm); [exact Hn|].
  apply lookup_insert_is_Some'. by right.
Qed.

Lemma with_name_is_Some nm storage : is_Some (with_name nm storage !! nm).
Proof.
  unfold with_name. destruct (storage !! nm) eqn:E; [by rewrite E|].
  rewrite lookup_insert_eq. eauto.
Qed.

(** What a request for a collection does to [_demo_storage]. *)
Lemma mongo_db_attr_storage nm (s : Handlers.app) :
  registry_ok s.1 s.2 ->
  _demo_storage (Handlers.mongo_db_attr nm s).2.2
  = with_name nm (_demo_storage s.2).
Proof.
  intros Hok. unfold Handlers.mongo_db_attr, __getitem__, with_name.
  cbn [fst snd].
  destruct (_collections s.1 !! nm) as [c|] eqn:E; cbn [fst snd].
  - destruct (Hok nm c E) as [_ [items ->]]. reflexivity.
  - unfold __init__. by destruct (_demo_storage s.2 !! nm).
Qed.

Lemma count_by_fold_storage coll field keys acc (s : Handlers.app) :
  registry_ok s.1 s.2 ->
  is_Some (_demo_storage s.2 !! coll) ->
  _demo_storage
    (foldl
       (fun acc key =>
          let '(c, s') := Handlers.mongo_db_attr coll acc.2 in
          ((acc.1 ++
            [(key, count_documents c (Some {[ field := VStr key ]}) s'.2)])
             %list,
           s'))
       (acc, s) keys).2.2
  = _demo_storage s.2.
Proof.
  revert acc s. induction keys as [|key keys IH]; intros acc s Hok Hs;
    [reflexivity|].
  cbn [foldl]. cbn beta. cbn [fst snd].
  destruct (mongo_db_attr_effect coll s Hok) as (_ & _ & _ & Hok1).
  pose proof (mongo_db_attr_storage coll s Hok) as Hst.
  rewrite (with_name_bound _ _ Hs) in Hst.
  destruct (Handlers.mongo_db_attr coll s) as [c s'].
  cbn [fst snd] in *. rewrite IH; [exact Hst | exact Hok1 |].
  by rewrite Hst.
Qed.

Lemma count_by_storage coll field keys (s : Handlers.app) :
  registry_ok s.1 s.2 ->
  is_Some (_demo_storage s.2 !! coll) ->
  _demo_storage (Handlers.count_by coll field keys s).2.2
  = _demo_storage s.2.
Proof. apply count_by_fold_storage. Qed.

Lemma count_by_fold coll field keys w acc (s : Handlers.app) :
  registry_ok s.1 s.2 ->
  heap s.2 = heap w ->
  (forall c, items_of c s.2 = items_of c w) ->
  let r :=
    foldl
      (fun acc key =>
         let '(c, s') := Handlers.mongo_db_attr coll acc.2 in
         ((acc.1 ++
           [(key, count_documents c (Some {[ field := VStr key ]}) s'.2)])
            %list,
          s'))
      (acc, s) keys in
  r.1 = (acc ++
         List.map
           (fun key =>
              (key,
               count_documents {| oid := 0%nat; name := coll |}
                 (Some {[ field := VStr key ]}) w))
           keys)%list /\
  registry_ok r.2.1 r.2.2 /\
  heap r.2.2 = heap w /\
  (forall c, items_of c r.2.2 = items_of c w).
Proof.
  revert acc s. induction keys as [|key keys IH]; intros acc s Hok Hh Hi r.
  - subst r. simpl. rewrite app_nil_r. auto.
  - subst r. cbn [foldl]. cbn beta. cbn [fst snd].
    destruct (mongo_db_attr_effect coll s Hok)
      as (Hname & Hheap & Hitems & Hok1).
    destruct (Handlers.mongo_db_attr coll s) as [c s'] eqn:E.
    cbn [fst snd] in *.
    assert (Hh' : heap s'.2 = heap w) by congruence.
    assert (Hi' : forall c0, items_of c0 s'.2 = items_of c0 w).
    { intros c0. by rewrite Hitems. }
    destruct (IH (acc ++
                  [(key, count_documents c (Some {[ field := VStr key ]})
                           s'.2)])%list s' Hok1 Hh' Hi')
      as (Hr & Hok2 & Hh2 & Hi2).
    split; [|auto]. rewrite Hr, <- app_assoc. simpl.
    rewrite (count_documents_same_docs
               {| oid := 0%nat; name := coll |} c _ w s'.2); auto.
Qed.

Lemma count_by_spec coll field keys (s : Handlers.app) :
  registry_ok s.1 s.2 ->
  (Handlers.count_by coll field keys s).1 =
    List.map
      (fun key =>
         (key,
          count_documents {| oid := 0%nat; name := coll |}
            (Some {[ field := VStr key ]}) s.2))
      keys /\
  registry_ok (Handlers.count_by coll field keys s).2.1
    (Handlers.count_by coll field keys s).2.2 /\
  heap (Handlers.count_by coll field keys s).2.2 = heap s.2 /\
  (forall c, items_of c (Handlers.count_by coll field keys s).2.2
             = items_of c s.2).
Proof.
  intros Hok. unfold Handlers.count_by.
  apply (count_by_fold coll field keys s.2 [] s Hok); auto.
Qed.

Lemma sum_counts_le coll field (keys : list string) w :
  NoDup keys ->
  (list_sum
     (List.map snd
        (List.map
           (fun key =>
              (key,
               count_documents {| oid := 0%nat; name := coll |}
                 (Some {[ field := VStr key ]}) w))
           keys))
   <= length (default [] (_demo_storage w !! coll)))%nat.
Proof.
  intros Hnodup. rewrite List.map_map. simpl.
  erewrite List.map_ext.
  - apply (counts_by_text_le w field keys
             (default [] (_demo_storage w !! coll)) Hnodup).
  - intros key. simpl. apply count_documents_filter, truthy_singleton.
Qed.

End Dashboard.

Section DashboardStats.

Import Demo.

Implicit Types (db : DemoDB) (w : world).

(** X25: the figures of [get_dashboard_stats] fit together.  The two totals
    are the numbers of stored players and projects; the counts by status
    are given for the five statuses in order and add up to at most the
    number of projects, and so do the counts by package; the count of
    recent submissions, asked for with a ["$gte"] operator document, is 0
    as long as no stored [created_at] is itself a dict.  The handler changes
    no document and no list of a collection; what it does change is
    [_demo_storage] itself, in which it binds the names ["players"],
    ["projects"] and ["intake_submissions"] to an empty list where they
    were missing. *)
Theorem dashboard_counts_fit_together week_ago db w :
  registry_ok db w ->
  let r := Handlers.get_dashboard_stats week_ago (db, w) in
  let stored nm := default [] (_demo_storage w !! nm) in
  Handlers.total_players r.1 = length (stored "players") /\
  Handlers.total_projects r.1 = length (stored "projects") /\
  List.map fst (Handlers.projects_by_status r.1)
  = ["requested"; "in_review"; "drafting"; "design"; "delivered"] /\
  List.map fst (Handlers.packages_breakdown r.1)
  = ["starter"; "development"; "elite_track"] /\
  (list_sum (List.map snd (Handlers.projects_by_status r.1))
   <= Handlers.total_projects r.1)%nat /\
  (list_sum (List.map snd (Handlers.packages_breakdown r.1))
   <= Handlers.total_projects r.1)%nat /\
  ((forall item kvs, item ∈ stored "intake_submissions" ->
      get (deref w item) "created_at" <> VDict kvs) ->
   Handlers.recent_submissions r.1 = 0%nat) /\
  heap r.2.2 = heap w /\
  (forall c, items_of c r.2.2 = items_of c w) /\
  _demo_storage r.2.2
  = with_name "intake_submissions"
      (with_name "projects" (with_name "players" (_demo_storage w))).
Proof.
  intros Hok r stored. subst r. unfold Handlers.get_dashboard_stats.
  destruct (mongo_db_attr_effect "players" (db, w) Hok)
    as (Hn1 & Hh1 & Hi1 & Hok1).
  pose proof (mongo_db_attr_storage "players" (db, w) Hok) as Hs1.
  destruct (Handlers.mongo_db_attr "players" (db, w)) as [players s1].
  cbn [fst snd] in *.
  destruct (mongo_db_attr_effect "projects" s1 Hok1)
    as (Hn2 & Hh2 & Hi2 & Hok2).
  pose proof (mongo_db_attr_storage "projects" s1 Hok1) as Hs2.
  destruct (Handlers.mongo_db_attr "projects" s1) as [projects s2].
  cbn [fst snd] in *.
  assert (Hbound2 : is_Some (_demo_storage s2.2 !! "projects")).
  { rewrite Hs2. apply with_name_is_Some. }
  destruct (count_by_spec "projects" "status"
              ["requested"; "in_review"; "drafting"; "design"; "delivered"]
              s2 Hok2) as (Hc3 & Hok3 & Hh3 & Hi3).
  pose proof (count_by_storage "projects" "status"
                ["requested"; "in_review"; "drafting"; "design";
                 "delivered"] s2 Hok2 Hbound2) as Hs3.
  destruct (Handlers.count_by "projects" "status" _ s2) as [by_status s3].
  cbn [fst snd] in *.
  destruct (mongo_db_attr_effect "intake_submissions" s3 Hok3)
    as (Hn4 & Hh4 & Hi4 & Hok4).
  pose proof (mongo_db_attr_storage "intake_submissions" s3 Hok3) as Hs4.
  destruct (Handlers.mongo_db_attr "intake_submissions" s3)
    as [intake s4].
  cbn [fst snd] in *.
  assert (Hbound4 : is_Some (_demo_storage s4.2 !! "projects")).
  { rewrite Hs4. apply with_name_keeps. by rewrite Hs3. }
  destruct (count_by_spec "projects" "package_type"
              ["starter"; "development"; "elite_track"] s4 Hok4)
    as (Hc5 & Hok5 & Hh5 & Hi5).
  pose proof (count_by_storage "projects" "package_type"
                ["starter"; "development"; "elite_track"] s4 Hok4 Hbound4)
    as Hs5.
  destruct (Handlers.count_by "projects" "package_type" _ s4)
    as [by_package s5].
  cbn [fst snd Handlers.total_players Handlers.total_projects
         Handlers.projects_by_status Handlers.recent_submissions
         Handlers.packages_breakdown] in *.
  assert (Hheap2 : heap s2.2 = heap w) by congruence.
  assert (Hitems2 : forall c, items_of c s2.2 = items_of c w).
  { intros c. by rewrite Hi2, Hi1. }
  assert (Hheap4 : heap s4.2 = heap w) by congruence.
  assert (Hitems4 : forall c, items_of c s4.2 = items_of c w).
  { intros c. by rewrite Hi4, Hi3, Hitems2. }
  assert (Hprojects :
    count_documents projects (Some ∅) s2.2 = length (stored "projects")).
  { unfold count_documents. simpl. rewrite Hitems2, items_of_name, Hn2.
    reflexivity. }
  split.
  { unfold count_documents. simpl. rewrite Hi1, items_of_name, Hn1.
    reflexivity. }
  split; [exact Hprojects|].
  split; [rewrite Hc3; reflexivity|].
  split; [rewrite Hc5; reflexivity|].
  split.
  { rewrite Hc3, Hprojects.
    assert (Hsame : forall key,
      count_documents {| oid := 0%nat; name := "projects" |}
        (Some {[ "status" := VStr key ]}) s2.2
      = count_documents {| oid := 0%nat; name := "projects" |}
          (Some {[ "status" := VStr key ]}) w).
    { intros key. by apply count_documents_same_docs. }
    pose proof (sum_counts_le "projects" "status"
                  ["requested"; "in_review"; "drafting"; "design";
                   "delivered"] w) as Hle.
    simpl in Hle. simpl. rewrite !Hsame. apply Hle.
    apply (bool_decide_unpack _). by vm_compute. }
  split.
  { rewrite Hc5, Hprojects.
    assert (Hsame : forall key,
      count_documents {| oid := 0%nat; name := "projects" |}
        (Some {[ "package_type" := VStr key ]}) s4.2
      = count_documents {| oid := 0%nat; name := "projects" |}
          (Some {[ "package_type" := VStr key ]}) w).
    { intros key. by apply count_documents_same_docs. }
    pose proof (sum_counts_le "projects" "package_type"
                  ["starter"; "development"; "elite_track"] w) as Hle.
    simpl in Hle. simpl. rewrite !Hsame. apply Hle.
    apply (bool_decide_unpack _). by vm_compute. }
  split.
  { intros Hplain.
    rewrite count_documents_filter by apply truthy_singleton.
    rewrite Hitems4, items_of_name, Hn4.
    assert (Hnone : forall items : list loc,
      (forall item, item ∈ items -> item ∈ stored "intake_submissions") ->
      List.filter
        (fun item =>
           matches (deref s4.2 item)
             {[ "created_at" := VDict [("$gte", VStr week_ago)] ]}) items
      = []).
    { induction items as [|x xs IH]; intros Hsub; [reflexivity|]. simpl.
      assert (Hx : matches (deref s4.2 x)
                     {[ "created_at" := VDict [("$gte", VStr week_ago)] ]}
                   = false).
      { rewrite matches_singleton.
        destruct (py_eq (get (deref s4.2 x) "created_at")
                    (VDict [("$gte", VStr week_ago)])) eqn:E;
          [|reflexivity].
        apply py_eq_dict_r in E as [kws Hk]. exfalso.
        apply (Hplain x kws); [apply Hsub; left|].
        unfold deref in *. by rewrite <- Hheap4. }
      rewrite Hx. apply IH. intros item Hin. apply Hsub. by right. }
    rewrite Hnone; [reflexivity | auto]. }
  split; [congruence|].
  split; [intros c; by rewrite Hi5, Hitems4|].
  by rewrite Hs5, Hs4, Hs3, Hs2, Hs1.
Qed.

End DashboardStats.

Lemma dashboard_counts_fit_together_witness :
  registry_ok Demo.new_db one_player_world /\
  Handlers.total_players
    (Handlers.get_dashboard_stats "2026-01-01T00:00:00+00:00"
       (Demo.new_db, one_player_world)).1 = 1%nat.
Proof.
  assert (Hok : registry_ok Demo.new_db one_player_world).
  { intros n c Hc. simpl in Hc. by rewrite lookup_empty in Hc. }
  split; [exact Hok|].
  exact (proj1 (dashboard_counts_fit_together "2026-01-01T00:00:00+00:00"
                  Demo.new_db one_player_world Hok)).
Defined.

Section Seeding.

Import Demo.

Implicit Types (db : DemoDB) (w : world).

Lemma holds_email_first_match coll e w :
  holds_email coll e w <->
  is_Some (first_match w {[ "email" := VStr e ]}
             (default [] (_demo_storage w !! coll))).
Proof.
  split.
  - intros (item & Hin & Hm).
    apply (first_match_is_Some _ _ _ item Hin). by rewrite matches_singleton.
  - intros [t Ht]. destruct (first_match_Some _ _ _ _ Ht) as [Hin Hm].
    exists t. split; [exact Hin|]. by rewrite matches_singleton in Hm.
Qed.

Lemma holds_email_persists coll e w w' :
  holds_email coll e w ->
  (forall l, is_Some (heap w !! l) -> heap w' !! l = heap w !! l) ->
  (forall item, item ∈ default [] (_demo_storage w !! coll) ->
                item ∈ default [] (_demo_storage w' !! coll)) ->
  holds_email coll e w'.
Proof.
  intros (item & Hin & Hm) Hheap Hitems. exists item.
  split; [by apply Hitems|].
  assert (Hsome : is_Some (heap w !! item)).
  { unfold deref, get in Hm. destruct (heap w !! item); [eauto|].
    simpl in Hm. rewrite lookup_empty in Hm. discriminate. }
  unfold deref in *. by rewrite (Hheap item Hsome).
Qed.

(** What one block of the seeding does. *)
Lemma seed_block_effect coll e (user : doc) spare (s : Handlers.app) :
  registry_ok s.1 s.2 ->
  user !! "email" = Some (VStr e) ->
  let stored w := default [] (_demo_storage w !! coll) in
  let r := Handlers.seed_block coll e user spare s in
  r.1 = Returned tt /\
  registry_ok r.2.1 r.2.2 /\
  holds_email coll e r.2.2 /\
  (forall l, is_Some (heap s.2 !! l) -> heap r.2.2 !! l = heap s.2 !! l) /\
  (forall c, name c <> coll -> items_of c r.2.2 = items_of c s.2) /\
  (holds_email coll e s.2 -> forall c, items_of c r.2.2 = items_of c s.2) /\
  (exists extra, stored r.2.2 = (stored s.2 ++ extra)%list /\
                 (length extra <= 1)%nat).
Proof.
  intros Hok Hemail stored r. destruct s as [db w]. simpl in Hok.
  destruct (getitem_effect db coll w Hok)
    as (Hname & Hheap & Hitems & Hkey & Hok1).
  set (g := __getitem__ db coll w) in *.
  assert (Hstored : items_of g.1.1 g.2 = stored w).
  { rewrite Hitems, items_of_name, Hname. reflexivity. }
  assert (Hfm : first_match g.2 {[ "email" := VStr e ]} (items_of g.1.1 g.2)
                = first_match w {[ "email" := VStr e ]} (stored w)).
  { rewrite Hstored. by apply first_match_same_heap. }
  assert (Hgrow : forall (d : doc) l,
            is_Some (heap w !! l) ->
            <[fresh (dom (heap g.2)) := d]> (heap g.2) !! l = heap w !! l).
  { intros d l Hl. rewrite lookup_insert_ne; [by rewrite Hheap|].
    intros <-. pose proof (is_fresh (dom (heap g.2))) as Hnew.
    apply Hnew, elem_of_dom. rewrite Hheap in *. exact Hl. }
  subst r. unfold Handlers.seed_block, Handlers.mongo_db_attr.
  cbn [fst snd]. fold g. unfold find_one. rewrite Hfm.
  destruct (first_match w {[ "email" := VStr e ]} (stored w))
    as [t|] eqn:E; pose proof E as E'; unfold stored in E'.
  - assert (Hd : deref g.2 t = deref w t)
      by (unfold deref; by rewrite Hheap).
    rewrite Hd. cbn [new_dict fst snd Handlers.found_truthy].
    destruct (first_match_Some _ _ _ _ E) as [Hin Hm].
    assert (Hsize : size (deref w t) <> 0%nat)
      by (eapply matches_str_nonempty; exact Hm).
    assert (Hcopy :
      deref (set_heap (<[fresh (dom (heap g.2)) := deref w t]> (heap g.2))
               g.2) (fresh (dom (heap g.2))) = deref w t).
    { unfold deref. simpl. by rewrite lookup_insert_eq. }
    rewrite Hcopy.
    destruct (Nat.eqb_spec (size (deref w t)) 0); [contradiction|].
    cbn [negb fst snd].
    assert (Hsame : forall c,
      items_of c (set_heap (<[fresh (dom (heap g.2)) := deref w t]>
                              (heap g.2)) g.2) = items_of c w)
      by exact Hitems.
    split; [reflexivity|]. split.
    { apply (registry_ok_storage _ _ _ Hok1). intros n' Hn. exact Hn. }
    split.
    { apply (holds_email_persists coll e w).
      - apply holds_email_first_match. rewrite E'. eauto.
      - intros l Hl. simpl. by apply Hgrow.
      - intros item Hi. change (item ∈ items_of {| oid := 0%nat;
                                                  name := coll |} g.2).
        by rewrite Hitems. }
    split; [intros l Hl; simpl; by apply Hgrow|].
    split; [intros c _; apply Hsame|].
    split; [intros _ c; apply Hsame|].
    exists []. split; [|simpl; lia]. rewrite app_nil_r.
    change (items_of {| oid := 0%nat; name := coll |} g.2
            = items_of {| oid := 0%nat; name := coll |} w).
    apply Hitems.
  - cbn [Handlers.found_truthy new_dict fst snd].
    rewrite (demo_getitem_cached g.1.2 coll _ g.1.1)
      by apply demo_getitem_caches.
    cbn [fst snd]. unfold insert_one. rewrite Hname.
    cbn [_demo_storage set_heap].
    destruct Hkey as [items Hitems'].
    assert (Hitems_eq : items = stored w).
    { rewrite <- Hstored, items_of_name, Hname, Hitems'. reflexivity. }
    rewrite Hitems'. subst items. cbn [fst snd].
    split; [reflexivity|]. split.
    { apply (registry_ok_storage _ _ _ Hok1). intros n' Hn. simpl.
      apply lookup_insert_is_Some'. by right. }
    split.
    { exists (fresh (dom (heap g.2))). simpl. rewrite lookup_insert_eq.
      simpl. split; [apply elem_of_app; right; left|].
      unfold deref. simpl. rewrite lookup_insert_eq. simpl.
      rewrite (get_present _ _ _ Hemail). apply String.eqb_refl. }
    split; [intros l Hl; simpl; by apply Hgrow|].
    split.
    { intros c Hc. unfold items_of. simpl.
      rewrite lookup_insert_ne by congruence.
      apply (Hitems c). }
    split.
    { intros Hholds. apply holds_email_first_match in Hholds.
      rewrite E' in Hholds. by destruct Hholds. }
    exists [fresh (dom (heap g.2))]. split; [|simpl; lia].
    unfold stored at 1. simpl. by rewrite lookup_insert_eq.
Qed.

End Seeding.

Section SeedingTwice.

Import Demo.

Implicit Types (db : DemoDB) (w : world).

Lemma stored_as_items coll w :
  default [] (_demo_storage w !! coll)
  = items_of {| oid := 0%nat; name := coll |} w.
Proof. reflexivity. Qed.

(** What one run of the seeding does. *)
Lemma seed_effect (d : Handlers.SeedDraws) (s : Handlers.app) :
  registry_ok s.1 s.2 ->
  let stored coll w := default [] (_demo_storage w !! coll) in
  let s1 := Handlers._seed_demo_data d s in
  registry_ok s1.1 s1.2 /\
  holds_email "staff_users" "admin@hoopwithher.com" s1.2 /\
  holds_email "coaches" "coach@university.edu" s1.2 /\
  (forall l, is_Some (heap s.2 !! l) -> heap s1.2 !! l = heap s.2 !! l) /\
  (forall c, name c <> "staff_users" -> name c <> "coaches" ->
             items_of c s1.2 = items_of c s.2) /\
  (holds_email "staff_users" "admin@hoopwithher.com" s.2 ->
   holds_email "coaches" "coach@university.edu" s.2 ->
   forall c, items_of c s1.2 = items_of c s.2) /\
  (exists extra,
     stored "staff_users" s1.2 = (stored "staff_users" s.2 ++ extra)%list /\
     (length extra <= 1)%nat) /\
  (exists extra,
     stored "coaches" s1.2 = (stored "coaches" s.2 ++ extra)%list /\
     (length extra <= 1)%nat).
Proof.
  intros Hok stored s1. subst s1. unfold Handlers._seed_demo_data.
  match goal with
  | |- context [Handlers.seed_block "staff_users" ?e ?u ?sp s] =>
      destruct (seed_block_effect "staff_users" e u sp s Hok)
        as (Ha & Hok_a & Hh_a & Hg_a & Ho_a & Hs_a & Hx_a);
        [reflexivity|];
      destruct (Handlers.seed_block "staff_users" e u sp s) as [oa sa]
  end.
  cbn [fst snd] in *. subst oa.
  match goal with
  | |- context [Handlers.seed_block "coaches" ?e ?u ?sp sa] =>
      destruct (seed_block_effect "coaches" e u sp sa Hok_a)
        as (Hc & Hok_c & Hh_c & Hg_c & Ho_c & Hs_c & Hx_c);
        [reflexivity|];
      destruct (Handlers.seed_block "coaches" e u sp sa) as [oc sc]
  end.
  cbn [fst snd] in *.
  assert (Hstaff_c : stored "staff_users" sc.2 = stored "staff_users" sa.2).
  { unfold stored. rewrite !stored_as_items. by apply Ho_c. }
  assert (Hcoach_a : stored "coaches" sa.2 = stored "coaches" s.2).
  { unfold stored. rewrite !stored_as_items. by apply Ho_a. }
  assert (Hgrow : forall l, is_Some (heap s.2 !! l) ->
                            heap sc.2 !! l = heap s.2 !! l).
  { intros l Hl. rewrite Hg_c; [by apply Hg_a|].
    rewrite (Hg_a l Hl). exact Hl. }
  split; [exact Hok_c|]. split.
  { apply (holds_email_persists _ _ sa.2); [exact Hh_a | exact Hg_c |].
    intros item Hi. fold (stored "staff_users" sc.2).
    by rewrite Hstaff_c. }
  split; [exact Hh_c|]. split; [exact Hgrow|]. split.
  { intros c Hc1 Hc2. rewrite (Ho_c c Hc2). by apply Ho_a. }
  split.
  { intros Hstaff Hcoach c. rewrite Hs_c; [by apply Hs_a|].
    apply (holds_email_persists _ _ s.2); [exact Hcoach | exact Hg_a |].
    intros item Hi. fold (stored "coaches" sa.2). by rewrite Hcoach_a. }
  split.
  { destruct Hx_a as (extra & Hx & Hlen). exists extra.
    rewrite Hstaff_c. auto. }
  destruct Hx_c as (extra & Hx & Hlen). exists extra.
  rewrite <- Hcoach_a. auto.
Qed.

(** X26: [_seed_demo_data] can be run again without harm.  After a run
    there is an admin with the address admin@hoopwithher.com in
    [staff_users] and a coach with the address coach@university.edu in
    [coaches]; the run appends at most one document to each of the two
    lists, leaves the list of every other name and every existing document
    as it was; and a second run, whatever it draws, leaves the list of
    every name as the first run left it. *)
Theorem seeding_twice_adds_nothing (d d' : Handlers.SeedDraws) db w :
  registry_ok db w ->
  let stored nm w := default [] (_demo_storage w !! nm) in
  let s1 := Handlers._seed_demo_data d (db, w) in
  let s2 := Handlers._seed_demo_data d' s1 in
  holds_email "staff_users" "admin@hoopwithher.com" s1.2 /\
  holds_email "coaches" "coach@university.edu" s1.2 /\
  (forall nm, stored nm s2.2 = stored nm s1.2) /\
  (forall l, is_Some (heap w !! l) -> heap s1.2 !! l = heap w !! l) /\
  (forall nm, nm <> "staff_users" -> nm <> "coaches" ->
              stored nm s1.2 = stored nm w) /\
  (exists extra,
     stored "staff_users" s1.2 = (stored "staff_users" w ++ extra)%list /\
     (length extra <= 1)%nat) /\
  (exists extra,
     stored "coaches" s1.2 = (stored "coaches" w ++ extra)%list /\
     (length extra <= 1)%nat).
Proof.
  intros Hok stored s1 s2.
  destruct (seed_effect d (db, w) Hok)
    as (Hok1 & Hstaff & Hcoach & Hgrow & Hother & _ & Hx1 & Hx2).
  fold s1 in Hok1, Hstaff, Hcoach, Hgrow, Hother, Hx1, Hx2.
  destruct (seed_effect d' s1 Hok1) as (_ & _ & _ & _ & _ & Hsame & _).
  fold s2 in Hsame.
  split; [exact Hstaff|]. split; [exact Hcoach|].
  split.
  { intros nm. unfold stored. rewrite !stored_as_items. by apply Hsame. }
  split; [exact Hgrow|]. split; [|auto].
  intros nm Hn1 Hn2. unfold stored. rewrite !stored_as_items.
  by apply Hother.
Qed.

End SeedingTwice.

Lemma seeding_twice_adds_nothing_witness :
  registry_ok Demo.new_db Demo.initial_world /\
  forall nm,
    default []
      (Demo._demo_storage
         (Handlers._seed_demo_data second_draws
            (Handlers._seed_demo_data first_draws
               (Demo.new_db, Demo.initial_world))).2 !! nm)
    = default []
        (Demo._demo_storage
           (Handlers._seed_demo_data first_draws
              (Demo.new_db, Demo.initial_world)).2 !! nm).
Proof.
  assert (Hok : registry_ok Demo.new_db Demo.initial_world).
  { intros n c Hc. simpl in Hc. by rewrite lookup_empty in Hc. }
  split; [exact Hok|].
  exact (proj1 (proj2 (proj2
           (seeding_twice_adds_nothing first_draws second_draws
              Demo.new_db Demo.initial_world Hok)))).
Defined.
